(** * NotionSitemapGen: a shallow embedding of [sitemap-generator.js]

    The script reads a page hierarchy through the Notion client, builds a
    tree of it, flattens the tree into display blocks and rewrites a target
    page with them.  The remote client is not part of the script: it is
    taken as a parameter everywhere, and a small reference workspace is given
    at the end of the definitions to run the script on concrete inputs. *)

From Stdlib Require Import Ascii.
From stdpp Require Import gmap strings list pretty.

(** ** Configuration *)

(** [const MAX_DEPTH = 4; // Prevent infinite recursion] *)
Definition MAX_DEPTH : nat := 4.

(** ** Data model *)

(** JavaScript truthiness of a string: only the empty string is falsy. *)
Definition truthy (s : string) : bool := negb (String.eqb s "").

(** [a || b] on strings. *)
Definition or_else (a b : string) : string := if truthy a then a else b.

(** [s.replace(/-/g, '')]: every hyphen is removed. *)
Fixpoint strip_hyphens (s : string) : string :=
  match s with
  | EmptyString => EmptyString
  | String c rest =>
      if Ascii.eqb c "-"%char then strip_hyphens rest
      else String c (strip_hyphens rest)
  end.

(** [`https://www.notion.so/${id.replace(/-/g, '')}`] *)
Definition notion_url (id : string) : string :=
  "https://www.notion.so/" +:+ strip_hyphens id.

(** The fields a sitemap node gets from [getPageDetails] (or, for a database
    leaf, from the literal at lines 120-127).  [lastEdited] is absent on
    database leaves. *)
Record details := Build_details {
  id : string;
  title : string;
  url : string;
  type : string;
  lastEdited : option string
}.

(** A sitemap tree as the script handles it: [null], or the object
    [{...pageDetails, children, depth}].  The induction principle that goes
    through the children is [tree_ind] below. *)
Local Unset Elimination Schemes.
Inductive tree : Type :=
| Null : tree
| Node (info : details) (children : list tree) (depth : nat) : tree.
Local Set Elimination Schemes.

(** Rich text items of the blocks the script emits. *)
Record annotations := Build_annotations {
  bold : option bool;
  italic : option bool;
  color : option string
}.

Record rich_text := Build_rich_text {
  content : string;
  link : option string;
  annot : option annotations
}.

(** The four kinds of block object the script builds. *)
Inductive notion_block : Type :=
| heading_1 (rich : list rich_text)
| bulleted_list_item (rich : list rich_text)
| callout (rich : list rich_text) (icon : string) (background : string)
| divider.

(** ** Renderer *)

(** [const emojis = ['🏢', '📁', '📄', '📎', '•']] *)
Definition emojis : list string := ["🏢"; "📁"; "📄"; "📎"; "•"].

(** [getEmojiForDepth(depth, type)] *)
Definition getEmojiForDepth (depth : nat) (type : string) : string :=
  if String.eqb type "database" then "🗃️"
  else nth (Nat.min depth (length emojis - 1)) emojis "".

Definition plain (s : string) : rich_text :=
  {| content := s; link := None; annot := None |}.

(** The block pushed for the node itself, lines 148-187. *)
Definition node_block (depth : nat) (n : details) : notion_block :=
  let emoji := getEmojiForDepth depth (type n) in
  if Nat.eqb depth 0 then
    heading_1 [plain (emoji +:+ " " +:+ title n)]
  else
    bulleted_list_item
      ([plain (emoji +:+ " ");
        {| content := title n;
           link := Some (url n);
           annot := Some {| bold := Some (Nat.eqb depth 1);
                            italic := None; color := None |} |}]
       ++ (if String.eqb (type n) "database" then
             [{| content := " [DB]";
                 link := None;
                 annot := Some {| bold := None; italic := Some true;
                                  color := Some "gray" |} |}]
           else [])).

(** [treeToNotionBlocks(tree, depth = 0)]: the node's block is pushed first,
    then the loop over [tree.children] pushes each child's blocks. *)
Fixpoint treeToNotionBlocks (t : tree) (depth : nat) : list notion_block :=
  match t with
  | Null => []
  | Node n children _ =>
      (fix each (cs : list tree) (blocks : list notion_block)
         : list notion_block :=
         match cs with
         | [] => blocks
         | child :: rest =>
             each rest (blocks ++ treeToNotionBlocks child (depth + 1))
         end) children [node_block depth n]
  end.

(** [countPages(tree)]:
    [1 + tree.children.reduce((sum, child) => sum + countPages(child), 0)] *)
Fixpoint countPages (t : tree) : nat :=
  match t with
  | Null => 0
  | Node _ children _ =>
      1 + (fix reduce (cs : list tree) (sum : nat) : nat :=
             match cs with
             | [] => sum
             | child :: rest => reduce rest (sum + countPages child)
             end) children 0
  end.


(** ** The remote client's data *)

(** An item of a title property's rich text array. *)
Record rich_item := Build_rich_item { plain_text : string }.

(** A property value of a page: its [type] and, when it has one, its
    [title] array. *)
Record property := Build_property {
  prop_type : string;
  prop_title : option (list rich_item)
}.

(** What [notion.pages.retrieve] resolves to.  The client's response type
    also admits the partial page object [{object, id}], which has neither
    [properties] nor [last_edited_time]; [properties] lists the entries in
    the order of [Object.entries]. *)
Record page := Build_page {
  object : string;
  properties : option (list (string * property));
  last_edited_time : option string
}.

(** A block of a children listing.  [block_title] is the title under the key
    named by the block's type ([child_page.title], [child_database.title]). *)
Record block := Build_block {
  block_id : string;
  block_type : string;
  block_title : string
}.

(** What [notion.blocks.children.list] resolves to.  The script only hands
    [next_cursor] back to the next call, so the cursor's type is left open. *)
Record list_response (Cursor : Type) := Build_list_response {
  results : list block;
  has_more : bool;
  next_cursor : option Cursor
}.
Arguments Build_list_response {Cursor}.
Arguments results {Cursor}.
Arguments has_more {Cursor}.
Arguments next_cursor {Cursor}.

(** The items [getChildPages] returns. *)
Record child_item := Build_child_item {
  child_id : string;
  child_title : string;
  child_type : string
}.

(** ** Page fetcher *)

(** [v?.title?.[0]?.plain_text] for a property value [v] that may be
    undefined. *)
Definition title_text (v : option property) : option string :=
  match v with
  | Some p =>
      match prop_title p with
      | Some (item :: _) => Some (plain_text item)
      | _ => None
      end
  | None => None
  end.

(** The truthiness test of the three [if]s of [extractTitle]. *)
Definition has_text (v : option property) : bool :=
  match title_text v with
  | Some s => truthy s
  | None => false
  end.

(** [props.key] on the properties object. *)
Definition prop (key : string) (props : list (string * property))
  : option property :=
  snd <$> find (fun kv => String.eqb (fst kv) key) props.

(** [extractTitle(page)].  [None] stands for the [TypeError] of reading a
    property of [page.properties] when it is undefined. *)
Definition extractTitle (p : page) : option string :=
  match properties p with
  | None => None
  | Some props =>
      if has_text (prop "title" props) then title_text (prop "title" props)
      else if has_text (prop "Name" props) then title_text (prop "Name" props)
      else
        match find (fun kv => String.eqb (prop_type (snd kv)) "title"
                              && has_text (Some (snd kv))) props with
        | Some kv => title_text (Some (snd kv))
        | None => Some "Untitled"
        end
  end.

Section Reader.

(** [notion.pages.retrieve({ page_id })]; [None] when the call throws. *)
Variable pages_retrieve : string -> option page.

(** [notion.blocks.children.list({ block_id, start_cursor, page_size: 100 })];
    [None] when the call throws. *)
Variable Cursor : Type.
Variable blocks_children_list :
  string -> option Cursor -> option (list_response Cursor).

(** [getPageDetails(pageId)]: everything between [try] and [catch] that
    throws ends in [return null]. *)
Definition getPageDetails (pageId : string) : option details :=
  match pages_retrieve pageId with
  | None => None
  | Some page =>
      match extractTitle page with
      | None => None
      | Some title =>
          Some {| id := pageId;
                  title := title;
                  url := notion_url pageId;
                  type := object page;
                  lastEdited := last_edited_time page |}
      end
  end.

(** ** Child lister *)

(** The body of [for (const block of response.results)]: two independent
    tests, each pushing one item. *)
Definition push_block (children : list child_item) (b : block)
  : list child_item :=
  let children :=
    if String.eqb (block_type b) "child_page" then
      children ++ [{| child_id := block_id b;
                      child_title := block_title b;
                      child_type := "page" |}]
    else children in
  if String.eqb (block_type b) "child_database" then
    children ++ [{| child_id := block_id b;
                    child_title := block_title b;
                    child_type := "database" |}]
  else children.

(** The [while (hasMore)] loop of [getChildPages], entered with
    [hasMore = true].  The fuel bounds the number of listing calls; the
    outer [None] means it ran out. *)
Fixpoint list_loop (fuel : nat) (pageId : string)
    (children : list child_item) (startCursor : option Cursor)
  : option (list child_item) :=
  match fuel with
  | 0 => None
  | S fuel =>
      match blocks_children_list pageId startCursor with
      | None => Some children
      | Some response =>
          let children := fold_left push_block (results response) children in
          if has_more response then
            list_loop fuel pageId children (next_cursor response)
          else Some children
      end
  end.

(** [getChildPages(pageId)] *)
Definition getChildPages (fuel : nat) (pageId : string)
  : option (list child_item) :=
  list_loop fuel pageId [] None.

(** ** Tree builder *)

(** The leaf pushed for a database child, lines 120-127 (its [depth] is
    given to [Node]). *)
Definition database_leaf (child : child_item) : details :=
  {| id := child_id child;
     title := or_else (child_title child) "Untitled Database";
     url := notion_url (child_id child);
     type := "database";
     lastEdited := None |}.

(** The [for (const child of childItems)] loop of [buildSitemapTree].
    [rec] is the recursive call; [visited] is the one shared set, so what a
    call adds is seen by the calls after it. *)
Fixpoint children_loop
    (rec : string -> nat -> gset string -> option (tree * gset string))
    (depth : nat) (childItems : list child_item)
    (children : list tree) (visited : gset string)
  : option (list tree * gset string) :=
  match childItems with
  | [] => Some (children, visited)
  | child :: rest =>
      if String.eqb (child_type child) "page" then
        match rec (child_id child) (depth + 1) visited with
        | None => None
        | Some (Null, visited) =>
            children_loop rec depth rest children visited
        | Some (childTree, visited) =>
            children_loop rec depth rest (children ++ [childTree]) visited
        end
      else if String.eqb (child_type child) "database" then
        children_loop rec depth rest
          (children ++ [Node (database_leaf child) [] (depth + 1)]) visited
      else children_loop rec depth rest children visited
  end.

(** [buildSitemapTree(pageId, depth, visited)].  [fuel] bounds the nesting
    of recursive calls and [lfuel] each listing loop; the outer [None]
    means one of them ran out.  The set returned is [visited] after the
    call. *)
Fixpoint build (lfuel fuel : nat) (pageId : string) (depth : nat)
    (visited : gset string) : option (tree * gset string) :=
  match fuel with
  | 0 => None
  | S fuel =>
      if (MAX_DEPTH <? depth) || bool_decide (pageId ∈ visited) then
        Some (Null, visited)
      else
        let visited := {[pageId]} ∪ visited in
        match getPageDetails pageId with
        | None => Some (Null, visited)
        | Some pageDetails =>
            match getChildPages lfuel pageId with
            | None => None
            | Some childItems =>
                match children_loop (build lfuel fuel) depth childItems
                        [] visited with
                | None => None
                | Some (children, visited) =>
                    Some (Node pageDetails children depth, visited)
                end
            end
        end
  end.

(** [buildSitemapTree(pageId)] with the defaults [depth = 0] and
    [visited = new Set()].  The nesting of calls never exceeds
    [MAX_DEPTH + 2] ([build_returns] below). *)
Definition buildSitemapTree (lfuel : nat) (pageId : string)
  : option tree :=
  fst <$> build lfuel (MAX_DEPTH + 2) pageId 0 ∅.

End Reader.

Arguments getPageDetails pages_retrieve pageId : simpl never.
Arguments getChildPages {Cursor} blocks_children_list fuel pageId.
Arguments list_loop {Cursor} blocks_children_list fuel pageId children
  startCursor.
Arguments build pages_retrieve {Cursor} blocks_children_list lfuel fuel pageId
  depth visited.
Arguments buildSitemapTree pages_retrieve {Cursor} blocks_children_list lfuel
  pageId.

(** ** Publisher *)

(** [allBlocks.slice(from, to)] for [from <= to]. *)
Definition slice {A : Type} (from to : nat) (l : list A) : list A :=
  take (to - from) (drop from l).

(** The requests [updateSitemapPage] sends. *)
Inductive request : Type :=
| list_request (block_id : string)
| delete_request (block_id : string)
| append_request (block_id : string) (children : list notion_block).

(** The outcome of one call of [updateSitemapPage]: the workspace it leaves,
    the requests it sent in order, each with whether it succeeded, and whether
    the call returned ([true]) or rethrew from its [catch] ([false]). *)
Record run (World : Type) := Build_run {
  final : World;
  log : list (request * bool);
  returned : bool
}.
Arguments Build_run {World}.
Arguments final {World}.
Arguments log {World}.
Arguments returned {World}.

(** [metadataBlocks]; [now] is [new Date().toLocaleString('es-ES')]. *)
Definition metadataBlocks (now : string) : list notion_block :=
  [callout [plain ("Auto-generated sitemap • Last updated: " +:+ now)]
     "🗺️" "blue_background";
   divider].

Section Publisher.

(** The state of the remote workspace, changed by deletions and appends. *)
Variable World : Type.
Variable Cursor : Type.

(** [const SITEMAP_PAGE_ID = process.env.NOTION_SITEMAP_PAGE_ID] *)
Variable SITEMAP_PAGE_ID : string.

(** [notion.blocks.children.list({ block_id })]; [None] when it throws. *)
Variable list_children : World -> string -> option (list_response Cursor).

(** [notion.blocks.delete({ block_id })]: the workspace after the call and
    whether it succeeded ([false] when it throws). *)
Variable delete_block : World -> string -> World * bool.

(** [notion.blocks.children.append({ block_id, children })], likewise. *)
Variable append_children :
  World -> string -> list notion_block -> World * bool.

(** [for (const block of existingBlocks.results)]: a failed deletion is
    caught inside the loop, warned about and skipped. *)
Fixpoint delete_loop (blocks : list block) (w : World)
    (sent : list (request * bool)) : World * list (request * bool) :=
  match blocks with
  | [] => (w, sent)
  | b :: rest =>
      let '(w, ok) := delete_block w (block_id b) in
      delete_loop rest w (sent ++ [(delete_request (block_id b), ok)])
  end.

(** [for (let i = 0; i < allBlocks.length; i += 100)]: a failed append
    leaves the loop through the outer [catch], which rethrows.  [None]
    when the fuel runs out. *)
Fixpoint append_loop (fuel i : nat) (allBlocks : list notion_block)
    (w : World) (sent : list (request * bool)) : option (run World) :=
  match fuel with
  | 0 => None
  | S fuel =>
      if i <? length allBlocks then
        let batch := slice i (i + 100) allBlocks in
        let '(w, ok) := append_children w SITEMAP_PAGE_ID batch in
        let sent := sent ++ [(append_request SITEMAP_PAGE_ID batch, ok)] in
        if ok then append_loop fuel (i + 100) allBlocks w sent
        else Some {| final := w; log := sent; returned := false |}
      else Some {| final := w; log := sent; returned := true |}
  end.

(** [updateSitemapPage(blocks)].  The append loop is given more fuel than
    it has iterations ([updateSitemapPage_total] below). *)
Definition updateSitemapPage (now : string) (blocks : list notion_block)
    (w : World) : option (run World) :=
  match list_children w SITEMAP_PAGE_ID with
  | None =>
      Some {| final := w;
              log := [(list_request SITEMAP_PAGE_ID, false)];
              returned := false |}
  | Some existingBlocks =>
      let '(w, sent) :=
        delete_loop (results existingBlocks) w
          [(list_request SITEMAP_PAGE_ID, true)] in
      let allBlocks := metadataBlocks now ++ blocks in
      append_loop (S (length allBlocks)) 0 allBlocks w sent
  end.

End Publisher.

Arguments updateSitemapPage {World Cursor} SITEMAP_PAGE_ID list_children
  delete_block append_children now blocks w.
Arguments append_loop {World} SITEMAP_PAGE_ID append_children fuel i allBlocks
  w sent.
Arguments delete_loop {World} delete_block blocks w sent.

(** The batches of the append requests that succeeded, in the order sent. *)
Fixpoint appended (sent : list (request * bool)) : list (list notion_block) :=
  match sent with
  | (append_request _ batch, true) :: rest => batch :: appended rest
  | _ :: rest => appended rest
  | [] => []
  end.

(** The ids of the delete requests sent, in order. *)
Fixpoint deletions (sent : list (request * bool)) : list string :=
  match sent with
  | (delete_request b, _) :: rest => b :: deletions rest
  | _ :: rest => deletions rest
  | [] => []
  end.

(** The kinds of entry in the requests sent. *)
Definition is_delete (entry : request * bool) : Prop :=
  match fst entry with
  | delete_request _ => True
  | _ => False
  end.


(** ** Reading a tree *)

(** The objects of a tree, each before the objects of its children. *)
Fixpoint subtrees (t : tree) : list tree :=
  match t with
  | Null => []
  | Node _ children _ => t :: flat_map subtrees children
  end.

(** The ids of the nodes that are not typed as a database, in the same
    order. *)
Fixpoint page_ids (t : tree) : list string :=
  match t with
  | Null => []
  | Node info children _ =>
      (if String.eqb (type info) "database" then [] else [id info])
      ++ flat_map page_ids children
  end.

(** What a call of the builder does to the visited set: the set only grows,
    and the page ids of the tree returned are distinct, were not in it
    before and are in it afterwards. *)
Definition fresh_ids (v : gset string) (t : tree) (v' : gset string) : Prop :=
  v ⊆ v' /\
  NoDup (page_ids t) /\
  forall x, x ∈ page_ids t -> x ∈ v' /\ x ∉ v.

(** The depth cap as the claim has it: the node's [depth] is at most
    [MAX_DEPTH]. *)
Definition capped (t : tree) : Prop :=
  match t with
  | Null => True
  | Node _ _ depth => depth <= MAX_DEPTH
  end.

(** The depth cap as the builder keeps it: only a database leaf may sit one
    level below [MAX_DEPTH]. *)
Definition within_cap (t : tree) : Prop :=
  match t with
  | Null => True
  | Node info children depth =>
      depth <= MAX_DEPTH \/
      (depth = MAX_DEPTH + 1 /\ type info = "database" /\ children = [])
  end.

(** A node typed as a database has no children. *)
Definition database_is_leaf (t : tree) : Prop :=
  match t with
  | Null => True
  | Node info children _ => type info = "database" -> children = []
  end.

(** [leveled d t]: the [depth] field of every node of [t] is its distance
    from the root plus [d]. *)
Fixpoint leveled (d : nat) (t : tree) : Prop :=
  match t with
  | Null => True
  | Node _ children depth =>
      depth = d /\
      (fix all (cs : list tree) : Prop :=
         match cs with
         | [] => True
         | c :: rest => leveled (S d) c /\ all rest
         end) children
  end.

(** The nodes of a tree in depth-first preorder, each with its distance from
    the root plus [d]: a node, then its children's nodes, child by child. *)
Fixpoint preorder (d : nat) (t : tree) : list (nat * details) :=
  match t with
  | Null => []
  | Node info children _ => (d, info) :: flat_map (preorder (S d)) children
  end.

(** A nested bullet item: a marker, then the title linked to [target]. *)
Definition is_bullet (marker target : string) (b : notion_block) : Prop :=
  match b with
  | bulleted_list_item (m :: t :: _) =>
      content m = marker +:+ " " /\ link t = Some target
  | _ => False
  end.

(** ** Reading a listing *)

(** The items kept from a list of blocks: child pages and child databases, in
    the order of the list. *)
Definition kept (blocks : list block) : list child_item :=
  flat_map
    (fun b =>
       if String.eqb (block_type b) "child_page" then
         [{| child_id := block_id b; child_title := block_title b;
             child_type := "page" |}]
       else if String.eqb (block_type b) "child_database" then
         [{| child_id := block_id b; child_title := block_title b;
             child_type := "database" |}]
       else [])
    blocks.

(** The pagination pages of a node: the response to the first call, then the
    response at each [next_cursor] while [has_more] holds, up to the first
    call that throws. *)
Fixpoint pages_listed {Cursor : Type}
    (blocks_children_list :
       string -> option Cursor -> option (list_response Cursor))
    (fuel : nat) (pageId : string) (cursor : option Cursor)
  : list (list_response Cursor) :=
  match fuel with
  | 0 => []
  | S fuel =>
      match blocks_children_list pageId cursor with
      | None => []
      | Some response =>
          response ::
          (if has_more response then
             pages_listed blocks_children_list fuel pageId
               (next_cursor response)
           else [])
      end
  end.

(** ** A reference workspace

    A finite model of the remote side, used to run the script: every node has
    a page object (or none, when retrieving it fails), its child blocks in
    order, and possibly an outage, the offset from which listing it throws.
    Listings are served 100 blocks at a time, with the offset as cursor. *)

Record remote_node := Build_remote_node {
  node_page : option page;
  node_blocks : list block;
  node_outage : option nat
}.

Record workspace := Build_workspace {
  nodes : gmap string remote_node;
  minted : nat
}.

Definition out_of_service (n : remote_node) (start : nat) : bool :=
  match node_outage n with
  | Some from => from <=? start
  | None => false
  end.

Definition serve (n : remote_node) (start_cursor : option nat)
  : option (list_response nat) :=
  let start := default 0 start_cursor in
  if out_of_service n start then None
  else
    let more := start + 100 <? length (node_blocks n) in
    Some {| results := take 100 (drop start (node_blocks n));
            has_more := more;
            next_cursor := if more then Some (start + 100) else None |}.

Definition ws_retrieve (ws : workspace) (page_id : string) : option page :=
  nodes ws !! page_id ≫= node_page.

Definition ws_list (ws : workspace) (block_id : string)
    (start_cursor : option nat) : option (list_response nat) :=
  nodes ws !! block_id ≫= fun n => serve n start_cursor.

(** Enough listing calls for every node of the workspace. *)
Definition ws_fuel (ws : workspace) : nat :=
  S (list_max ((fun kv => length (node_blocks (snd kv)))
                 <$> map_to_list (nodes ws))).

Definition without (block_id' : string) (n : remote_node) : remote_node :=
  {| node_page := node_page n;
     node_blocks := filter (fun b => block_id b ≠ block_id') (node_blocks n);
     node_outage := node_outage n |}.

Definition holds_block (block_id' : string) (n : remote_node) : bool :=
  bool_decide (block_id' ∈ block_id <$> node_blocks n).

(** Deleting a block removes it from its parent; it throws when no node has
    such a block. *)
Definition ws_delete (ws : workspace) (block_id : string) : workspace * bool :=
  ({| nodes := without block_id <$> nodes ws; minted := minted ws |},
   bool_decide
     (map_Exists (fun _ n => holds_block block_id n = true) (nodes ws))).

Definition block_kind (b : notion_block) : string :=
  match b with
  | heading_1 _ => "heading_1"
  | bulleted_list_item _ => "bulleted_list_item"
  | callout _ _ _ => "callout"
  | divider => "divider"
  end.

Definition mint (from : nat) (children : list notion_block) : list block :=
  imap (fun i b => {| block_id := "new-" +:+ pretty (from + i);
                      block_type := block_kind b;
                      block_title := "" |}) children.

(** Appending adds the children, under fresh ids, after the node's blocks;
    it throws for an unknown node and for more than 100 children. *)
Definition ws_append (ws : workspace) (block_id : string)
    (children : list notion_block) : workspace * bool :=
  match nodes ws !! block_id with
  | Some n =>
      if length children <=? 100 then
        ({| nodes :=
              <[block_id :=
                  {| node_page := node_page n;
                     node_blocks := node_blocks n ++ mint (minted ws) children;
                     node_outage := node_outage n |}]> (nodes ws);
            minted := minted ws + length children |}, true)
      else (ws, false)
  | None => (ws, false)
  end.


(** A workspace in which deleting the block [locked] throws. *)
Definition locked_delete (locked : string) (ws : workspace)
    (block_id : string) : workspace * bool :=
  if String.eqb block_id locked then (ws, false) else ws_delete ws block_id.

(** The script on a reference workspace. *)
Definition ws_build (ws : workspace) (pageId : string) : option tree :=
  buildSitemapTree (ws_retrieve ws) (ws_list ws) (ws_fuel ws) pageId.

Definition ws_update (target now : string) (blocks : list notion_block)
    (ws : workspace) : option (run workspace) :=
  updateSitemapPage target (fun w id => ws_list w id None) ws_delete ws_append
    now blocks ws.

(** ** Sample workspaces *)

Definition titled (name : string) : page :=
  {| object := "page";
     properties :=
       Some [("title", {| prop_type := "title";
                          prop_title := Some [{| plain_text := name |}] |})];
     last_edited_time := Some "2024-05-01T10:00:00.000Z" |}.

Definition child_page (id' name : string) : block :=
  {| block_id := id'; block_type := "child_page"; block_title := name |}.

Definition child_database (id' name : string) : block :=
  {| block_id := id'; block_type := "child_database"; block_title := name |}.

Definition paragraph (id' : string) : block :=
  {| block_id := id'; block_type := "paragraph"; block_title := "" |}.

Definition page_node (name : string) (blocks : list block) : remote_node :=
  {| node_page := Some (titled name); node_blocks := blocks;
     node_outage := None |}.

Definition workspace_of (l : list (string * remote_node)) : workspace :=
  {| nodes := list_to_map l; minted := 0 |}.

(** A chain of five pages, the last one holding a database. *)
Definition deep_ws : workspace :=
  workspace_of
    [("p0", page_node "Home" [child_page "p1" "One"]);
     ("p1", page_node "One" [paragraph "x1"; child_page "p2" "Two"]);
     ("p2", page_node "Two" [child_page "p3" "Three"]);
     ("p3", page_node "Three" [child_page "p4" "Four"]);
     ("p4", page_node "Four" [child_database "d5" "Tasks"])].

(** A database: not retrievable as a page, its rows are pages. *)
Definition database_node (rows : list block) : remote_node :=
  {| node_page := None; node_blocks := rows; node_outage := None |}.

(** Two pages listing each other, and a database, listed by both, that
    holds one of them as a row. *)
Definition cyclic_ws : workspace :=
  workspace_of
    [("a", page_node "A" [child_page "b" "B"; child_database "d" ""]);
     ("b", page_node "B" [child_database "d" ""; child_page "a" "A"]);
     ("d", database_node [child_page "a" "A"])].

(** A page with 101 child pages whose listing throws from offset 100 on. *)
Definition many_children : list block :=
  (fun i => child_page ("c" +:+ pretty i) "Child") <$> seq 0 101.

Definition flaky_ws : workspace :=
  workspace_of
    [("root", {| node_page := Some (titled "Root");
                 node_blocks := many_children;
                 node_outage := Some 100 |})].

(** A page object without properties, as the client's partial response. *)
Definition partial_page : page :=
  {| object := "page"; properties := None; last_edited_time := None |}.

Definition partial_ws : workspace :=
  workspace_of
    [("p", {| node_page := Some partial_page; node_blocks := [];
              node_outage := None |})].

(** A target page left with 101 blocks by an earlier run. *)
Definition stale_blocks : list block :=
  (fun i => {| block_id := "old-" +:+ pretty i;
               block_type := "bulleted_list_item";
               block_title := "" |}) <$> seq 0 101.

Definition stale_ws : workspace :=
  workspace_of
    [("sitemap", {| node_page := Some (titled "Sitemap");
                    node_blocks := stale_blocks;
                    node_outage := None |})].

(** A target page left with three blocks. *)
Definition short_ws : workspace :=
  workspace_of [("sitemap", page_node "Sitemap" (take 3 stale_blocks))].

Definition small_tree : tree :=
  Node {| id := "p0"; title := "Home"; url := notion_url "p0";
          type := "page"; lastEdited := None |}
    [Node {| id := "p1"; title := "One"; url := notion_url "p1";
             type := "page"; lastEdited := None |}
       [Node {| id := "d2"; title := "Tasks"; url := notion_url "d2";
                type := "database"; lastEdited := None |} [] 2] 1;
     Null;
     Node {| id := "p3"; title := "Two"; url := notion_url "p3";
             type := "page"; lastEdited := None |} [] 1] 0.

(** ** Main execution *)

(** The three environment variables the script reads; [None] when unset. *)
Record environment := Build_environment {
  NOTION_TOKEN : option string;
  NOTION_ROOT_PAGE_ID : option string;
  NOTION_SITEMAP_PAGE_ID : option string
}.

(** [!v] for an environment variable: unset, or the empty string. *)
Definition unset (v : option string) : bool :=
  match v with
  | Some s => negb (truthy s)
  | None => true
  end.

(** How [main] ends: [process.exit(1)] on a missing variable (line 282) or
    on a [null] tree (line 289); [process.exit(1)] from the handler of
    [main().catch] when [updateSitemapPage] rethrew; or normally, after
    ['Done!'].  The last two carry the page count logged and the run of the
    publisher. *)
Inductive ending (World : Type) : Type :=
| exit_missing_env
| exit_no_tree
| exit_fatal (pageCount : nat) (r : run World)
| done_ (pageCount : nat) (r : run World).
Arguments exit_missing_env {World}.
Arguments exit_no_tree {World}.
Arguments exit_fatal {World}.
Arguments done_ {World}.

Section Main.

Variable env : environment.
Variable pages_retrieve : string -> option page.
Variable World : Type.
Variable Cursor : Type.
Variable blocks_children_list :
  string -> option Cursor -> option (list_response Cursor).
Variable list_children : World -> string -> option (list_response Cursor).
Variable delete_block : World -> string -> World * bool.
Variable append_children :
  World -> string -> list notion_block -> World * bool.

(** [const ROOT_PAGE_ID = process.env.NOTION_ROOT_PAGE_ID] *)
Definition ROOT_PAGE_ID : string := default "" (NOTION_ROOT_PAGE_ID env).

(** [const SITEMAP_PAGE_ID = process.env.NOTION_SITEMAP_PAGE_ID] *)
Definition SITEMAP_PAGE_ID : string := default "" (NOTION_SITEMAP_PAGE_ID env).

(** [main()], with the handler of [main().catch].  [None] when a listing
    loop of the builder runs out of fuel. *)
Definition main (lfuel : nat) (now : string) (w : World)
  : option (ending World) :=
  if unset (NOTION_ROOT_PAGE_ID env) || unset (NOTION_SITEMAP_PAGE_ID env)
     || unset (NOTION_TOKEN env)
  then Some exit_missing_env
  else
    match buildSitemapTree pages_retrieve blocks_children_list lfuel
            ROOT_PAGE_ID with
    | None => None
    | Some Null => Some exit_no_tree
    | Some tree =>
        let pageCount := countPages tree in
        let blocks := treeToNotionBlocks tree 0 in
        match updateSitemapPage SITEMAP_PAGE_ID list_children delete_block
                append_children now blocks w with
        | None => None
        | Some r =>
            Some (if returned r then done_ pageCount r
                  else exit_fatal pageCount r)
        end
    end.

End Main.

Arguments main env pages_retrieve {World Cursor} blocks_children_list
  list_children delete_block append_children lfuel now w.

(** ** Reading more of a tree and of a run *)

(** The characters of a string. *)
Fixpoint chars (s : string) : list ascii :=
  match s with
  | EmptyString => []
  | String c rest => c :: chars rest
  end.

(** The fields of the root of a tree. *)
Definition root_info (t : tree) : option details :=
  match t with
  | Null => None
  | Node info _ _ => Some info
  end.

(** The ids of the roots of a list of trees, [null]s left out. *)
Definition root_ids (ts : list tree) : list string :=
  omap (fun t => id <$> root_info t) ts.

(** The block of a node rendered at the depth written in the node. *)
Definition own_blocks (t : tree) : list notion_block :=
  match t with
  | Null => []
  | Node info _ depth => [node_block depth info]
  end.

(** A node's url is the url of its id, and its title is not empty. *)
Definition well_labelled (t : tree) : Prop :=
  match t with
  | Null => True
  | Node info _ _ => url info = notion_url (id info) /\ title info <> ""
  end.

(** The rich text of a bullet ends with the [' [DB]'] item. *)
Definition has_db_suffix (b : notion_block) : Prop :=
  match b with
  | bulleted_list_item [_; _; suffix] => content suffix = " [DB]"
  | _ => False
  end.

(** The title item of a bullet and its [bold] annotation. *)
Definition bullet_bold (b : notion_block) : option bool :=
  match b with
  | bulleted_list_item (_ :: t :: _) => annot t ≫= bold
  | _ => None
  end.

(** The page a request is addressed to, for listings and appends. *)
Definition addressed_to (target : string) (entry : request * bool) : Prop :=
  match fst entry with
  | list_request b => b = target
  | append_request b _ => b = target
  | delete_request _ => True
  end.

(** A request that went through, or a deletion. *)
Definition tolerated (entry : request * bool) : Prop :=
  is_delete entry \/ snd entry = true.

(** A remote that answers every listing call with [has_more: true]. *)
Definition endless_list (block_id : string) (cursor : option nat)
  : option (list_response nat) :=
  Some {| results := []; has_more := true;
          next_cursor := Some (S (default 0 cursor)) |}.

(** A workspace with two pages, the root listing the other and a database,
    and a target page. *)
Definition office_ws : workspace :=
  workspace_of
    [("root-1", page_node "Office"
                  [paragraph "x"; child_page "a-b-c" "Rooms";
                   child_database "db-1" ""]);
     ("a-b-c", page_node "Rooms" []);
     ("sitemap", page_node "Sitemap" [paragraph "old"])].

Definition office_env : environment :=
  {| NOTION_TOKEN := Some "secret";
     NOTION_ROOT_PAGE_ID := Some "root-1";
     NOTION_SITEMAP_PAGE_ID := Some "sitemap" |}.

(** A page whose [Name] comes first but whose [title] key also has text. *)
Definition keyed_page : page :=
  {| object := "page";
     properties :=
       Some [("Name", {| prop_type := "title";
                         prop_title := Some [{| plain_text := "By name" |}] |});
             ("title", {| prop_type := "rich_text";
                          prop_title := Some [{| plain_text := "By key" |}] |})];
     last_edited_time := None |}.

(** A page whose title array is empty. *)
Definition blank_page : page :=
  {| object := "page";
     properties :=
       Some [("title", {| prop_type := "title"; prop_title := Some [] |});
             ("Tags", {| prop_type := "multi_select"; prop_title := None |})];
     last_edited_time := None |}.

(** [main] on a reference workspace. *)
Definition ws_main (env : environment) (now : string) (ws : workspace)
  : option (ending workspace) :=
  main env (ws_retrieve ws) (ws_list ws) (fun w id => ws_list w id None)
    ws_delete ws_append (ws_fuel ws) now ws.

(** ** The markers, as a table

    The hierarchy marker of a node by depth and type, written out: a node
    typed ['database'] has the database marker at every depth; any other
    node has the marker of its depth, the last one from depth 4 on. *)
Definition hierarchy_marker (depth : nat) (type : string) : string :=
  if String.eqb type "database" then "🗃️"
  else
    match depth with
    | 0 => "🏢"
    | 1 => "📁"
    | 2 => "📄"
    | 3 => "📎"
    | _ => "•"
    end.

(** The text of the first rich text item of a bullet. *)
Definition bullet_marker (b : notion_block) : option string :=
  match b with
  | bulleted_list_item (m :: _) => Some (content m)
  | _ => None
  end.

(** A page holding a database and a page that holds a database too. *)
Definition databases_tree : tree :=
  Node {| id := "p0"; title := "Home"; url := notion_url "p0";
          type := "page"; lastEdited := None |}
    [Node {| id := "d1"; title := "Tasks"; url := notion_url "d1";
             type := "database"; lastEdited := None |} [] 1;
     Node {| id := "p1"; title := "Team"; url := notion_url "p1";
             type := "page"; lastEdited := None |}
       [Node {| id := "d2"; title := "People"; url := notion_url "d2";
                type := "database"; lastEdited := None |} [] 2] 1] 0.

(** * Properties *)

(** ** Trees *)

(** Induction on a tree with the hypothesis on every child. *)
Lemma tree_ind (P : tree -> Prop) :
  P Null ->
  (forall info children depth,
      Forall P children -> P (Node info children depth)) ->
  forall t, P t.
Proof.
  intros HNull HNode. fix IH 1. intros [|info cs d]; [exact HNull|].
  apply HNode. induction cs as [|c cs IHcs]; constructor.
  - apply IH.
  - exact IHcs.
Qed.

(** ** Renderer *)

Example emoji_page_2 : getEmojiForDepth 2 "page" = "📄".
Proof. reflexivity. Qed.

Example emoji_deep : getEmojiForDepth 9 "page" = "•".
Proof. reflexivity. Qed.

Example emoji_database : getEmojiForDepth 2 "database" = "🗃️".
Proof. reflexivity. Qed.

(** The push loop of [treeToNotionBlocks] appends the children's blocks. *)
Lemma treeToNotionBlocks_Node info children depth' depth :
  treeToNotionBlocks (Node info children depth') depth =
  node_block depth info
    :: flat_map (fun c => treeToNotionBlocks c (depth + 1)) children.
Proof.
  simpl.
  change (node_block depth info :: flat_map ?f ?l)
    with ([node_block depth info] ++ flat_map f l).
  generalize [node_block depth info] as blocks.
  induction children as [|c cs IH]; intros blocks.
  - simpl. by rewrite app_nil_r.
  - rewrite IH. simpl flat_map. by rewrite app_assoc.
Qed.

(** The reduce of [countPages] adds the children's counts. *)
Lemma countPages_Node info children depth :
  countPages (Node info children depth) =
  1 + foldr (fun c sum => countPages c + sum) 0 children.
Proof.
  simpl. f_equal.
  match goal with
  | |- ?reduce children 0 = _ =>
      enough (forall sum,
                 reduce children sum =
                 sum + foldr (fun c sum => countPages c + sum) 0 children)
        as H by apply (H 0)
  end.
  induction children as [|c cs IH]; intros sum; simpl.
  - lia.
  - rewrite IH. lia.
Qed.

Lemma length_flat_map_foldr {A B} (f : A -> list B) (l : list A) :
  length (flat_map f l) = foldr (fun x sum => length (f x) + sum) 0 l.
Proof.
  induction l as [|x l IH]; simpl; [done|]. by rewrite length_app, IH.
Qed.

Lemma treeToNotionBlocks_length t depth :
  length (treeToNotionBlocks t depth) = countPages t.
Proof.
  revert depth. induction t as [|info cs d IH] using tree_ind; intros depth.
  - done.
  - rewrite treeToNotionBlocks_Node, countPages_Node. simpl. f_equal.
    rewrite length_flat_map_foldr.
    induction IH as [|c cs Hc _ IHcs]; simpl; [done|].
    by rewrite Hc, IHcs.
Qed.

(** The renderer walks the tree in preorder. *)
Lemma treeToNotionBlocks_walk t depth :
  treeToNotionBlocks t depth =
  (fun dn => node_block (fst dn) (snd dn)) <$> preorder depth t.
Proof.
  revert depth. induction t as [|info cs d IH] using tree_ind; intros depth.
  - done.
  - rewrite treeToNotionBlocks_Node. simpl. f_equal.
    rewrite Nat.add_1_r.
    induction IH as [|c cs Hc _ IHcs]; simpl; [done|].
    by rewrite fmap_app, Hc, IHcs.
Qed.

Lemma preorder_deeper t depth :
  Forall (fun dn => depth <= fst dn) (preorder depth t).
Proof.
  revert depth. induction t as [|info cs d IH] using tree_ind; intros depth.
  - constructor.
  - simpl. constructor; [simpl; lia|].
    induction IH as [|c cs Hc _ IHcs]; simpl; [constructor|].
    apply Forall_app; split; [|exact IHcs].
    eapply Forall_impl; [apply Hc|]. simpl. intros; lia.
Qed.

(** Below the root a node is rendered as a bullet with its marker and a link
    to its url. *)
Lemma node_block_bullet depth info :
  0 < depth ->
  is_bullet (getEmojiForDepth depth (type info)) (url info)
    (node_block depth info).
Proof.
  intros Hd. unfold node_block.
  destruct (Nat.eqb_spec depth 0) as [->|_]; [lia|]. simpl. done.
Qed.

(** C8: for every tree, [null] included, [treeToNotionBlocks] produces as
    many blocks as [countPages] counts nodes. *)
Theorem blocks_count_is_countPages :
  forall t : tree, length (treeToNotionBlocks t 0) = countPages t.
Proof. intros t. apply treeToNotionBlocks_length. Qed.

(** [getEmojiForDepth] is the table of markers. *)
Lemma getEmojiForDepth_marker depth type :
  getEmojiForDepth depth type = hierarchy_marker depth type.
Proof.
  unfold getEmojiForDepth, hierarchy_marker.
  destruct (String.eqb type "database"); [done|].
  do 5 (destruct depth as [|depth]; [reflexivity|]). reflexivity.
Qed.

(** C2, as claimed, fails: the marker of a bullet does not depend on the
    depth for every node.  In a tree with a database at depth 1 and another
    at depth 2, both bullets carry the database marker, while the page
    between them carries the marker of its depth. *)
Lemma database_marker_is_not_by_depth :
  (fun dn => (fst dn, type (snd dn))) <$> preorder 0 databases_tree =
    [(0, "page"); (1, "database"); (1, "page"); (2, "database")] /\
  bullet_marker <$> tail (treeToNotionBlocks databases_tree 0) =
    [Some "🗃️ "; Some "📁 "; Some "🗃️ "].
Proof. split; reflexivity. Qed.

(** C2, amended: [treeToNotionBlocks] renders the nodes of a tree in
    depth-first preorder into one flat sequence, one block per node: [null]
    gives no block; the root gives one [heading_1] with its marker and
    title; and the nodes below it, taken in preorder (a node before its
    children, the children in order), give one [bulleted_list_item] each,
    carrying a hierarchy marker and a link to the node's url.  The marker is
    the one of the table: by depth for a node that is not a database (the
    building for the root, then folder, page, paperclip, and the bullet from
    depth 4 on), and the database marker at every depth for a node typed
    ['database']. *)
Theorem treeToNotionBlocks_preorder :
  treeToNotionBlocks Null 0 = [] /\
  (forall depth type,
      getEmojiForDepth depth type = hierarchy_marker depth type) /\
  forall info children depth,
    exists items,
      treeToNotionBlocks (Node info children depth) 0 =
      heading_1 [plain (hierarchy_marker 0 (type info) +:+ " " +:+ title info)]
        :: items /\
      Forall2
        (fun dn item =>
           0 < fst dn /\
           is_bullet (hierarchy_marker (fst dn) (type (snd dn)))
             (url (snd dn)) item)
        (flat_map (preorder 1) children) items.
Proof.
  split; [done|]. split; [apply getEmojiForDepth_marker|].
  intros info children depth.
  pose proof (treeToNotionBlocks_walk (Node info children depth) 0) as Hwalk.
  simpl preorder in Hwalk. rewrite fmap_cons in Hwalk.
  cbn [fst snd] in Hwalk. unfold node_block at 1 in Hwalk.
  cbn [Nat.eqb] in Hwalk. rewrite getEmojiForDepth_marker in Hwalk.
  eexists. split; [exact Hwalk|].
  apply Forall2_fmap_r, Forall_Forall2_diag.
  assert (Forall (fun dn : nat * details => 1 <= fst dn)
            (flat_map (preorder 1) children)) as Hdeep.
  { clear Hwalk. induction children as [|c cs IH]; simpl; [constructor|].
    apply Forall_app; split; [apply preorder_deeper|exact IH]. }
  eapply Forall_impl; [exact Hdeep|]. intros [d n] Hd; simpl in *.
  split; [lia|]. rewrite <- getEmojiForDepth_marker.
  apply node_block_bullet. lia.
Qed.

(** ** Page fetcher *)

Lemma has_text_title_text v :
  has_text v = true -> exists s, title_text v = Some s.
Proof.
  unfold has_text. destruct (title_text v) as [s|]; [eauto|done].
Qed.

(** [extractTitle] throws exactly on an object without [properties]. *)
Lemma extractTitle_throws p :
  extractTitle p = None <-> properties p = None.
Proof.
  unfold extractTitle. destruct (properties p) as [props|]; [|done].
  split; [|done]. intros H. exfalso.
  destruct (has_text (prop "title" props)) eqn:E1.
  { apply has_text_title_text in E1 as [s Hs]. congruence. }
  destruct (has_text (prop "Name" props)) eqn:E2.
  { apply has_text_title_text in E2 as [s Hs]. congruence. }
  destruct (find _ props) as [kv|] eqn:E3; [|done].
  apply find_some in E3 as [_ E3]. apply andb_prop in E3 as [_ E3].
  apply has_text_title_text in E3 as [s Hs]. congruence.
Qed.

Lemma extractTitle_found props :
  has_text (prop "title" props) = true ->
  extractTitle {| object := "page"; properties := Some props;
                  last_edited_time := None |}
  = title_text (prop "title" props).
Proof. intros H. unfold extractTitle. simpl. by rewrite H. Qed.

Example extractTitle_title : extractTitle (titled "Home") = Some "Home".
Proof. reflexivity. Qed.

Example extractTitle_untitled :
  extractTitle {| object := "page";
                  properties :=
                    Some [("title",
                           {| prop_type := "title";
                              prop_title := Some [{| plain_text := "" |}] |});
                          ("Tags",
                           {| prop_type := "multi_select";
                              prop_title := None |})];
                  last_edited_time := None |}
  = Some "Untitled".
Proof. reflexivity. Qed.

Example extractTitle_by_type :
  extractTitle {| object := "page";
                  properties :=
                    Some [("Tags",
                           {| prop_type := "multi_select";
                              prop_title := None |});
                          ("Task",
                           {| prop_type := "title";
                              prop_title :=
                                Some [{| plain_text := "Ship" |}] |})];
                  last_edited_time := None |}
  = Some "Ship".
Proof. reflexivity. Qed.

(** What a successful [getPageDetails] returns. *)
Lemma getPageDetails_Some pages_retrieve pageId d :
  getPageDetails pages_retrieve pageId = Some d ->
  exists p,
    pages_retrieve pageId = Some p /\
    d = {| id := pageId; title := title d; url := notion_url pageId;
           type := object p; lastEdited := last_edited_time p |} /\
    extractTitle p = Some (title d).
Proof.
  unfold getPageDetails.
  destruct (pages_retrieve pageId) as [p|]; [|done].
  destruct (extractTitle p) as [t|] eqn:Ht; [|done].
  intros [= <-]. exists p. repeat split. exact Ht.
Qed.

(** C6, as claimed, fails: the retrieval succeeds with a page object that has
    no [properties], the title extraction throws inside the same [try], and
    [getPageDetails] returns [null] although the retrieval did not throw. *)
Lemma getPageDetails_null_without_retrieval_error :
  ws_retrieve partial_ws "p" = Some partial_page /\
  getPageDetails (ws_retrieve partial_ws) "p" = None.
Proof. split; reflexivity. Qed.

(** C6, amended: on success [getPageDetails] returns an object whose id is the
    requested id, with the extracted title, the url of the id and the kind of
    the retrieved object; it returns [null] exactly when something inside the
    [try] throws: the retrieval, or the title extraction on a retrieved
    object without [properties].  For a retrieved object that has
    [properties] it never returns [null].  Nothing is propagated: the result
    is always a value. *)
Theorem getPageDetails_result :
  forall (pages_retrieve : string -> option page) (pageId : string),
    (forall d,
        getPageDetails pages_retrieve pageId = Some d ->
        exists p,
          pages_retrieve pageId = Some p /\
          id d = pageId /\
          extractTitle p = Some (title d) /\
          type d = object p /\
          url d = notion_url pageId /\
          lastEdited d = last_edited_time p) /\
    (getPageDetails pages_retrieve pageId = None <->
     pages_retrieve pageId = None \/
     exists p, pages_retrieve pageId = Some p /\ properties p = None) /\
    (forall p,
        pages_retrieve pageId = Some p ->
        is_Some (properties p) ->
        is_Some (getPageDetails pages_retrieve pageId)).
Proof.
  intros retrieve pageId. unfold getPageDetails.
  destruct (retrieve pageId) as [p|] eqn:Hp.
  - destruct (extractTitle p) as [t|] eqn:Ht.
    + split; [|split].
      * intros d [= <-]. exists p. simpl. done.
      * split; [done|]. intros [|[p' [[= <-] Hnone]]]; [done|].
        apply extractTitle_throws in Hnone. congruence.
      * intros p' _ _. eauto.
    + apply extractTitle_throws in Ht. split; [|split].
      * done.
      * split; [|done]. intros _. right. eauto.
      * intros p' [= <-] [props Hprops]. congruence.
  - split; [|split]; [done| |done]. split; [|done]. by left.
Qed.

Lemma getPageDetails_result_witness :
  getPageDetails (ws_retrieve deep_ws) "p0" =
    Some {| id := "p0"; title := "Home"; url := notion_url "p0";
            type := "page";
            lastEdited := Some "2024-05-01T10:00:00.000Z" |} /\
  exists p,
    ws_retrieve deep_ws "p0" = Some p /\
    extractTitle p = Some "Home" /\ object p = "page".
Proof.
  split; [reflexivity|].
  destruct (getPageDetails_result (ws_retrieve deep_ws) "p0") as [Hok _].
  destruct (Hok _ eq_refl) as (p & Hp & _ & Ht & Hty & _).
  exists p. split; [exact Hp|]. split; [exact Ht|]. symmetry. exact Hty.
Defined.

(** ** Child lister *)

Lemma kept_app l1 l2 : kept (l1 ++ l2) = kept l1 ++ kept l2.
Proof. apply flat_map_app. Qed.

(** The loop over one response pushes the kept items after those already
    collected. *)
Lemma fold_push_block blocks children :
  fold_left push_block blocks children = children ++ kept blocks.
Proof.
  revert children. induction blocks as [|b bs IH]; intros children.
  - simpl. by rewrite app_nil_r.
  - simpl fold_left. rewrite IH. unfold kept at 2. simpl flat_map.
    fold (kept bs). unfold push_block.
    destruct (String.eqb_spec (block_type b) "child_page") as [E|_].
    + rewrite E. simpl. by rewrite <- app_assoc.
    + destruct (String.eqb (block_type b) "child_database").
      * by rewrite <- app_assoc.
      * done.
Qed.

Section Lister.

Variable Cursor : Type.
Variable blocks_children_list :
  string -> option Cursor -> option (list_response Cursor).

(** What the loop returns: the kept items of the pages it listed. *)
Lemma list_loop_pages fuel pageId children cursor items :
  list_loop blocks_children_list fuel pageId children cursor = Some items ->
  items =
  children ++
    kept (flat_map results
            (pages_listed blocks_children_list fuel pageId cursor)).
Proof.
  revert children cursor.
  induction fuel as [|fuel IH]; intros children cursor; simpl; [done|].
  destruct (blocks_children_list pageId cursor) as [response|].
  - rewrite fold_push_block. simpl flat_map. rewrite kept_app.
    destruct (has_more response).
    + intros H. apply IH in H. by rewrite H, app_assoc.
    + intros [= <-]. simpl. by rewrite app_nil_r.
  - intros [= <-]. simpl. by rewrite app_nil_r.
Qed.

End Lister.

(** *** The lister on a reference workspace *)

Lemma ws_fuel_bound ws pageId n :
  nodes ws !! pageId = Some n ->
  0 < ws_fuel ws /\ length (node_blocks n) <= 100 * ws_fuel ws.
Proof.
  intros Hn. unfold ws_fuel. split; [lia|].
  set (sizes := (fun kv : string * remote_node => length (node_blocks (snd kv)))
                  <$> map_to_list (nodes ws)).
  assert (Forall (fun k => k <= list_max sizes) sizes) as Hall
    by (apply list_max_le; lia).
  assert (length (node_blocks n) ∈ sizes) as Hin.
  { apply (list_elem_of_fmap_2
             (fun kv : string * remote_node => length (node_blocks (snd kv)))
             _ (pageId, n)).
    by apply elem_of_map_to_list. }
  rewrite List.Forall_forall in Hall.
  apply list_elem_of_In, Hall in Hin. lia.
Qed.

Lemma page_then_rest {A} (l : list A) start :
  take 100 (drop start l) ++ drop (start + 100) l = drop start l.
Proof. by rewrite <- drop_drop, take_drop. Qed.

(** Without an outage the loop collects every kept block from the cursor
    on. *)
Lemma ws_list_loop_all ws pageId n :
  nodes ws !! pageId = Some n ->
  node_outage n = None ->
  forall fuel cursor children,
    0 < fuel ->
    length (node_blocks n) <= default 0 cursor + 100 * fuel ->
    list_loop (ws_list ws) fuel pageId children cursor =
    Some (children ++ kept (drop (default 0 cursor) (node_blocks n))).
Proof.
  intros Hn Hup. induction fuel as [|fuel IH]; intros cursor children Hpos Hlen;
    [lia|].
  simpl. unfold ws_list. rewrite Hn. simpl. unfold serve, out_of_service.
  rewrite Hup. simpl. rewrite fold_push_block.
  destruct (Nat.ltb_spec (default 0 cursor + 100) (length (node_blocks n)))
    as [Hmore|Hlast].
  - rewrite IH; cbn [default from_option Datatypes.id]; [|lia..].
    by rewrite <- app_assoc, <- kept_app, page_then_rest.
  - rewrite take_ge; [done|]. rewrite length_drop. lia.
Qed.

(** With or without outages, the loop returns. *)
Lemma ws_list_loop_returns ws pageId :
  forall fuel cursor children,
    0 < fuel ->
    (forall n, nodes ws !! pageId = Some n ->
               length (node_blocks n) <= default 0 cursor + 100 * fuel) ->
    is_Some (list_loop (ws_list ws) fuel pageId children cursor).
Proof.
  induction fuel as [|fuel IH]; intros cursor children Hpos Hlen; [lia|].
  simpl. unfold ws_list.
  destruct (nodes ws !! pageId) as [n|] eqn:Hn; simpl; [|eauto].
  unfold serve. destruct (out_of_service n _); [eauto|].
  simpl.
  destruct (Nat.ltb_spec (default 0 cursor + 100) (length (node_blocks n)))
    as [Hmore|Hlast]; [|eauto].
  specialize (Hlen n eq_refl).
  apply IH; [lia|]. intros n' [= <-].
  cbn [default from_option Datatypes.id]. lia.
Qed.

Lemma ws_listing_returns ws pageId :
  is_Some (getChildPages (ws_list ws) (ws_fuel ws) pageId).
Proof.
  unfold getChildPages. apply ws_list_loop_returns.
  - unfold ws_fuel. lia.
  - intros n Hn. apply ws_fuel_bound in Hn as [_ Hn].
    cbn [default from_option Datatypes.id]. lia.
Qed.

(** C5, as claimed, fails: the page has 101 child pages, the second listing
    call throws, and [getChildPages] returns the 100 of the first response,
    not the page's child pages. *)
Lemma getChildPages_stops_at_failed_call :
  (node_blocks <$> nodes flaky_ws !! "root") = Some many_children /\
  getChildPages (ws_list flaky_ws) (ws_fuel flaky_ws) "root" =
    Some (kept (take 100 many_children)) /\
  getChildPages (ws_list flaky_ws) (ws_fuel flaky_ws) "root" <>
    Some (kept many_children).
Proof.
  split; [reflexivity|]. split; [vm_compute; reflexivity|].
  intros H. apply (f_equal (fmap length)) in H. vm_compute in H. discriminate.
Qed.

(** C5, amended: [getChildPages] returns the child blocks of type
    [child_page] and [child_database], blocks of every other type left out,
    in the order listed, of the pagination pages obtained by following
    [next_cursor] while [has_more] holds, up to the first listing call that
    throws.  On a workspace that serves a node's blocks 100 at a time and
    never throws for it, these are all the node's child pages and
    databases; and on every such workspace, outages or not, the lister
    returns. *)
Theorem getChildPages_listed :
  (forall (Cursor : Type)
          (blocks_children_list :
             string -> option Cursor -> option (list_response Cursor))
          (fuel : nat) (pageId : string) (items : list child_item),
      getChildPages blocks_children_list fuel pageId = Some items ->
      items =
      kept (flat_map results
              (pages_listed blocks_children_list fuel pageId None))) /\
  (forall (ws : workspace) (pageId : string) (n : remote_node),
      nodes ws !! pageId = Some n ->
      node_outage n = None ->
      getChildPages (ws_list ws) (ws_fuel ws) pageId =
      Some (kept (node_blocks n))) /\
  (forall (ws : workspace) (pageId : string),
      is_Some (getChildPages (ws_list ws) (ws_fuel ws) pageId)).
Proof.
  split; [|split; [|apply ws_listing_returns]].
  - intros Cursor list fuel pageId items H.
    apply list_loop_pages in H. exact H.
  - intros ws pageId n Hn Hup. unfold getChildPages.
    destruct (ws_fuel_bound _ _ _ Hn) as [Hpos Hlen].
    rewrite (ws_list_loop_all ws pageId n Hn Hup);
      cbn [default from_option Datatypes.id]; [done|done|lia].
Qed.

Lemma getChildPages_listed_witness :
  getChildPages (ws_list deep_ws) (ws_fuel deep_ws) "p1" =
    Some [{| child_id := "p2"; child_title := "Two"; child_type := "page" |}] /\
  kept (take 100 many_children) =
    kept (flat_map results
            (pages_listed (ws_list flaky_ws) (ws_fuel flaky_ws) "root" None)).
Proof.
  destruct getChildPages_listed as (Hpages & Hall & _). split.
  - apply (Hall deep_ws "p1"
             (page_node "One" [paragraph "x1"; child_page "p2" "Two"]));
      reflexivity.
  - apply (Hpages nat (ws_list flaky_ws) (ws_fuel flaky_ws) "root").
    vm_compute. reflexivity.
Defined.

(** ** Tree builder *)

Lemma subtrees_Node info children depth :
  subtrees (Node info children depth) =
  Node info children depth :: flat_map subtrees children.
Proof. done. Qed.

Lemma Forall_flat_map_each {A B} (P : B -> Prop) (f : A -> list B) l :
  Forall (fun x => Forall P (f x)) l -> Forall P (flat_map f l).
Proof.
  induction 1 as [|x l Hx _ IH]; simpl; [constructor|].
  apply Forall_app. done.
Qed.

Lemma leveled_Node d info children depth :
  leveled d (Node info children depth) <->
  depth = d /\ Forall (leveled (S d)) children.
Proof.
  simpl. split; intros [Hd Hcs]; (split; [exact Hd|]); clear Hd.
  - induction children as [|c cs IH]; constructor; [apply Hcs|].
    apply IH, Hcs.
  - induction Hcs as [|c cs Hc _ IH]; [done|]. split; [exact Hc|exact IH].
Qed.

Section Builder.

Variable pages_retrieve : string -> option page.
Variable Cursor : Type.
Variable blocks_children_list :
  string -> option Cursor -> option (list_response Cursor).
Variable lfuel : nat.

Local Abbreviation build_at :=
  (build pages_retrieve blocks_children_list lfuel).

(** *** Invariants that do not look at the visited set *)

Lemma children_loop_Forall (Q : tree -> Prop)
    (rec : string -> nat -> gset string -> option (tree * gset string))
    depth :
  Q Null ->
  (forall pageId v t v', rec pageId (depth + 1) v = Some (t, v') -> Q t) ->
  (forall c, Q (Node (database_leaf c) [] (depth + 1))) ->
  forall items children v out v',
    Forall Q children ->
    children_loop rec depth items children v = Some (out, v') ->
    Forall Q out.
Proof.
  intros HNull Hrec Hleaf.
  induction items as [|c items IH]; intros children v out v' Hacc; simpl.
  - intros [= <- <-]. exact Hacc.
  - destruct (String.eqb (child_type c) "page").
    + destruct (rec (child_id c) (depth + 1) v) as [[t v1]|] eqn:Hcall;
        [|done].
      apply Hrec in Hcall. destruct t as [|info cs d].
      * apply IH. exact Hacc.
      * apply IH. apply Forall_app. split; [exact Hacc|].
        constructor; [exact Hcall|constructor].
    + destruct (String.eqb (child_type c) "database").
      * apply IH. apply Forall_app. split; [exact Hacc|].
        constructor; [apply Hleaf|constructor].
      * apply IH. exact Hacc.
Qed.

(** Whatever holds of [null], of database leaves and of a page node whose
    children have it one level down, holds of every tree built. *)
Lemma build_inv (Q : nat -> tree -> Prop) :
  (forall d, Q d Null) ->
  (forall d c, d <= MAX_DEPTH ->
               Q (d + 1) (Node (database_leaf c) [] (d + 1))) ->
  (forall d pageId info cs,
      d <= MAX_DEPTH ->
      getPageDetails pages_retrieve pageId = Some info ->
      Forall (Q (d + 1)) cs ->
      Q d (Node info cs d)) ->
  forall fuel pageId d v t v',
    build_at fuel pageId d v = Some (t, v') -> Q d t.
Proof.
  intros HNull Hleaf Hnode.
  induction fuel as [|fuel IH]; intros pageId d v t v'; simpl; [done|].
  destruct (Nat.ltb_spec MAX_DEPTH d) as [Hdeep|Hd]; simpl.
  { intros [= <- <-]. apply HNull. }
  destruct (bool_decide (pageId ∈ v)).
  { intros [= <- <-]. apply HNull. }
  destruct (getPageDetails pages_retrieve pageId) as [info|] eqn:Hinfo.
  2:{ intros [= <- <-]. apply HNull. }
  destruct (getChildPages blocks_children_list lfuel pageId) as [items|];
    [|done].
  destruct (children_loop _ d items [] _) as [[cs v1]|] eqn:Hloop; [|done].
  intros [= <- <-]. eapply Hnode; [exact Hd|exact Hinfo|].
  eapply (children_loop_Forall (Q (d + 1))); [| | | |exact Hloop].
  - apply HNull.
  - intros p v0 t0 v0' Hcall. eapply IH. exact Hcall.
  - intros c. apply Hleaf. exact Hd.
  - constructor.
Qed.

(** A call entered below the cap, or on a visited page, returns [null] and
    leaves the visited set as it was. *)
Lemma build_guard fuel pageId d v :
  MAX_DEPTH < d \/ pageId ∈ v ->
  build_at (S fuel) pageId d v = Some (Null, v).
Proof.
  intros [Hd|Hv]; simpl.
  - destruct (Nat.ltb_spec MAX_DEPTH d); [done|lia].
  - rewrite (bool_decide_eq_true_2 _ Hv). by rewrite orb_true_r.
Qed.

Lemma build_within_cap fuel pageId d v t v' :
  build_at fuel pageId d v = Some (t, v') ->
  Forall within_cap (subtrees t) /\ leveled d t.
Proof.
  apply (build_inv (fun d t => Forall within_cap (subtrees t) /\ leveled d t)).
  - intros d0. split; [constructor|done].
  - intros d0 c Hd. split; [|by apply leveled_Node].
    constructor; [|constructor]. simpl.
    destruct (decide (d0 + 1 <= MAX_DEPTH)); [by left|right].
    unfold MAX_DEPTH in *. split; [lia|done].
  - intros d0 p info cs Hd _ Hcs. split.
    + rewrite subtrees_Node. constructor; [by left|].
      apply Forall_flat_map_each. eapply Forall_impl; [exact Hcs|].
      by intros c [Hc _].
    + apply leveled_Node. split; [done|]. rewrite <- Nat.add_1_r.
      eapply Forall_impl; [exact Hcs|]. by intros c [_ Hc].
Qed.

Lemma build_database_leaves fuel pageId d v t v' :
  (forall page_id p, pages_retrieve page_id = Some p -> object p = "page") ->
  build_at fuel pageId d v = Some (t, v') ->
  Forall database_is_leaf (subtrees t).
Proof.
  intros Hobj.
  apply (build_inv (fun _ t => Forall database_is_leaf (subtrees t))).
  - constructor.
  - intros d0 c _. constructor; [done|constructor].
  - intros d0 p info cs _ Hinfo Hcs. rewrite subtrees_Node. constructor.
    + apply getPageDetails_Some in Hinfo as (pg & Hpg & -> & _). simpl.
      rewrite (Hobj _ _ Hpg). done.
    + by apply Forall_flat_map_each.
Qed.

(** *** The visited set *)

Lemma children_loop_fresh
    (rec : string -> nat -> gset string -> option (tree * gset string))
    depth (v0 : gset string) :
  (forall pageId v t v',
      rec pageId (depth + 1) v = Some (t, v') -> fresh_ids v t v') ->
  forall items children v out v',
    v0 ⊆ v ->
    NoDup (flat_map page_ids children) ->
    (forall x, x ∈ flat_map page_ids children -> x ∈ v /\ x ∉ v0) ->
    children_loop rec depth items children v = Some (out, v') ->
    v ⊆ v' /\
    NoDup (flat_map page_ids out) /\
    (forall x, x ∈ flat_map page_ids out -> x ∈ v' /\ x ∉ v0).
Proof.
  intros Hrec.
  assert (forall children t v v1,
             v0 ⊆ v ->
             NoDup (flat_map page_ids children) ->
             (forall x,
                 x ∈ flat_map page_ids children -> x ∈ v /\ x ∉ v0) ->
             fresh_ids v t v1 ->
             v0 ⊆ v1 /\
             NoDup (flat_map page_ids (children ++ [t])) /\
             (forall x, x ∈ flat_map page_ids (children ++ [t]) ->
                        x ∈ v1 /\ x ∉ v0)) as Hpush.
  { intros children t v v1 Hv0 Hnd Hin (Hsub & Hndt & Hint).
    rewrite flat_map_app. simpl. rewrite app_nil_r.
    split; [by transitivity v|]. split.
    - apply NoDup_app. split; [exact Hnd|]. split; [|exact Hndt].
      intros x Hx Hxt. apply Hin in Hx. apply Hint in Hxt. tauto.
    - intros x [Hx|Hx]%elem_of_app.
      + apply Hin in Hx as [Hxv Hx0]. split; [|exact Hx0].
        revert Hxv. apply Hsub.
      + apply Hint in Hx as [Hx1 Hxv]. split; [exact Hx1|].
        intros Hx0. apply Hxv. revert Hx0. apply Hv0. }
  induction items as [|c items IH]; intros children v out v' Hv0 Hnd Hin;
    simpl.
  - intros [= <- <-]. done.
  - destruct (String.eqb (child_type c) "page").
    + destruct (rec (child_id c) (depth + 1) v) as [[t v1]|] eqn:Hcall;
        [|done].
      apply Hrec in Hcall.
      destruct (Hpush children t v v1 Hv0 Hnd Hin Hcall) as (H1 & H2 & H3).
      assert (v ⊆ v1) as Hgrow by apply Hcall.
      destruct t as [|info cs d]; intros Hloop.
      * apply IH in Hloop as (Hsub & ? & ?); [|exact H1|exact Hnd|].
        -- split; [by transitivity v1|done].
        -- intros x Hx. apply Hin in Hx as [Hxv Hx0]. split; [|exact Hx0].
           revert Hxv. apply Hgrow.
      * apply IH in Hloop as (Hsub & ? & ?); [|exact H1|exact H2|exact H3].
        split; [by transitivity v1|done].
    + destruct (String.eqb (child_type c) "database"); intros Hloop.
      * apply IH in Hloop as (? & ? & ?); [done|exact Hv0| |].
        -- rewrite flat_map_app. simpl. by rewrite !app_nil_r.
        -- rewrite flat_map_app. simpl. rewrite !app_nil_r. exact Hin.
      * by apply IH in Hloop.
Qed.

Lemma build_fresh fuel :
  forall pageId d v t v',
    build_at fuel pageId d v = Some (t, v') -> fresh_ids v t v'.
Proof.
  induction fuel as [|fuel IH]; intros pageId d v t v'; simpl; [done|].
  assert (forall w : gset string, v ⊆ w -> fresh_ids v Null w) as HNull.
  { intros w Hw. split; [exact Hw|]. split; [constructor|].
    intros x Hx. by apply elem_of_nil in Hx. }
  destruct (MAX_DEPTH <? d); simpl.
  { intros [= <- <-]. by apply HNull. }
  destruct (bool_decide (pageId ∈ v)) eqn:Hseen.
  { intros [= <- <-]. by apply HNull. }
  apply bool_decide_eq_false in Hseen.
  destruct (getPageDetails pages_retrieve pageId) as [info|] eqn:Hinfo.
  2:{ intros [= <- <-]. apply HNull. set_solver. }
  destruct (getChildPages blocks_children_list lfuel pageId) as [items|];
    [|done].
  destruct (children_loop _ d items [] _) as [[cs v1]|] eqn:Hloop; [|done].
  intros [= <- <-].
  eapply (children_loop_fresh _ d ({[pageId]} ∪ v)) in Hloop
    as (Hsub & Hnd & Hin).
  - apply getPageDetails_Some in Hinfo as (pg & _ & Hid & _).
    assert (id info = pageId) as Hpid by (by rewrite Hid).
    split; [clear -Hsub; set_solver|]. simpl.
    assert (forall x,
               x ∈ (if String.eqb (type info) "database" then []
                    else [id info]) -> x = pageId) as Hroot.
    { intros x. destruct (String.eqb (type info) "database").
      - by intros ?%elem_of_nil.
      - rewrite list_elem_of_singleton. congruence. }
    split.
    + apply NoDup_app. split; [|split; [|exact Hnd]].
      * destruct (String.eqb (type info) "database");
          [constructor|apply NoDup_singleton].
      * intros x Hx Hxc. apply Hroot in Hx as ->.
        apply Hin in Hxc as [_ Hxc]. apply Hxc. clear. set_solver.
    + intros x [Hx|Hx]%elem_of_app.
      * apply Hroot in Hx as ->. clear -Hsub Hseen. set_solver.
      * apply Hin in Hx as [Hx1 Hx2]. split; [exact Hx1|].
        intros Hxv. apply Hx2. clear -Hxv. set_solver.
  - intros p w t0 w' Hcall. eapply IH. exact Hcall.
  - done.
  - constructor.
  - intros x Hx. by apply elem_of_nil in Hx.
Qed.

(** *** Termination *)

Hypothesis listing_returns :
  forall pageId, is_Some (getChildPages blocks_children_list lfuel pageId).

Lemma children_loop_returns
    (rec : string -> nat -> gset string -> option (tree * gset string))
    depth :
  (forall pageId v, is_Some (rec pageId (depth + 1) v)) ->
  forall items children v,
    is_Some (children_loop rec depth items children v).
Proof.
  intros Hrec. induction items as [|c items IH]; intros children v; simpl.
  - eauto.
  - destruct (String.eqb (child_type c) "page").
    + destruct (Hrec (child_id c) v) as [[t v1] ->].
      destruct t; apply IH.
    + destruct (String.eqb (child_type c) "database"); apply IH.
Qed.

(** The calls nest at most [MAX_DEPTH + 2] deep. *)
Lemma build_returns fuel :
  forall pageId d v,
    0 < fuel -> MAX_DEPTH + 2 <= fuel + d ->
    is_Some (build_at fuel pageId d v).
Proof.
  induction fuel as [|fuel IH]; intros pageId d v Hpos Hfuel; [lia|].
  simpl. destruct (Nat.ltb_spec MAX_DEPTH d) as [Hdeep|Hd]; simpl; [eauto|].
  destruct (bool_decide (pageId ∈ v)); [eauto|].
  destruct (getPageDetails pages_retrieve pageId) as [info|]; [|eauto].
  destruct (listing_returns pageId) as [items ->].
  destruct (children_loop_returns (build_at fuel) d) with
    (items := items) (children := @nil tree) (v := {[pageId]} ∪ v)
    as [[cs v1] ->]; [|eauto].
  intros p w. apply IH; unfold MAX_DEPTH in *; lia.
Qed.

End Builder.

Lemma buildSitemapTree_Some pages_retrieve {Cursor}
    (blocks_children_list :
       string -> option Cursor -> option (list_response Cursor))
    lfuel pageId t :
  buildSitemapTree pages_retrieve blocks_children_list lfuel pageId = Some t ->
  exists v',
    build pages_retrieve blocks_children_list lfuel (MAX_DEPTH + 2) pageId 0 ∅
    = Some (t, v').
Proof.
  unfold buildSitemapTree.
  destruct (build _ _ _ _ _ _ _) as [[t' v']|]; [|done].
  intros [= <-]. eauto.
Qed.

Lemma buildSitemapTree_returns pages_retrieve {Cursor}
    (blocks_children_list :
       string -> option Cursor -> option (list_response Cursor))
    lfuel pageId :
  (forall p, is_Some (getChildPages blocks_children_list lfuel p)) ->
  exists t,
    buildSitemapTree pages_retrieve blocks_children_list lfuel pageId
    = Some t /\
    NoDup (page_ids t).
Proof.
  intros Hlist. unfold buildSitemapTree.
  destruct (build_returns pages_retrieve Cursor blocks_children_list lfuel
              Hlist (MAX_DEPTH + 2) pageId 0 ∅) as [[t v'] Hrun];
    [unfold MAX_DEPTH; lia..|].
  rewrite Hrun. exists t. split; [done|].
  by apply build_fresh in Hrun as (_ & Hnd & _).
Qed.

(** Every page object of a workspace made of page objects has [object]
    ["page"]. *)
Lemma workspace_of_pages l :
  Forall (fun kv : string * remote_node =>
            forall p, node_page (snd kv) = Some p -> object p = "page") l ->
  forall page_id p,
    ws_retrieve (workspace_of l) page_id = Some p -> object p = "page".
Proof.
  intros Hall page_id p. unfold ws_retrieve, workspace_of. simpl.
  destruct (list_to_map l !! page_id) as [n|] eqn:Hn; [|done]. simpl.
  apply elem_of_list_to_map_2 in Hn.
  rewrite List.Forall_forall in Hall. apply list_elem_of_In in Hn.
  apply (Hall _ Hn).
Qed.


(** C3, as claimed, fails: in a chain of five pages whose last page holds a
    database, the database leaf is a node of depth 5 in the tree returned. *)
Lemma database_leaf_below_max_depth :
  exists t,
    ws_build deep_ws "p0" = Some t /\ ~ Forall capped (subtrees t).
Proof.
  eexists. split; [vm_compute; reflexivity|].
  intros H. eapply (Forall_lookup_1 _ _ 5) in H; [|reflexivity].
  unfold capped, MAX_DEPTH in H. lia.
Qed.

(** C3, amended: every node of the tree [buildSitemapTree] returns has depth
    at most [MAX_DEPTH = 4], except database leaves, which may have depth
    [MAX_DEPTH + 1]; the [depth] of a node is its distance from the root; and
    a recursive call entered with depth greater than [MAX_DEPTH] returns
    [null], leaving the visited set as it was, and the caller pushes no node
    for a [null]. *)
Theorem build_depth_cap :
  forall (pages_retrieve : string -> option page) (Cursor : Type)
         (blocks_children_list :
            string -> option Cursor -> option (list_response Cursor))
         (lfuel : nat),
    (forall pageId t,
        buildSitemapTree pages_retrieve blocks_children_list lfuel pageId
        = Some t ->
        Forall within_cap (subtrees t) /\ leveled 0 t) /\
    (forall fuel pageId depth visited,
        MAX_DEPTH < depth ->
        build pages_retrieve blocks_children_list lfuel (S fuel) pageId depth
          visited
        = Some (Null, visited)) /\
    (forall rec depth child rest children visited visited',
        child_type child = "page" ->
        rec (child_id child) (depth + 1) visited = Some (Null, visited') ->
        children_loop rec depth (child :: rest) children visited =
        children_loop rec depth rest children visited').
Proof.
  intros retrieve Cursor list lfuel. split; [|split].
  - intros pageId t [v' Hrun]%buildSitemapTree_Some.
    eapply build_within_cap. exact Hrun.
  - intros fuel pageId depth visited Hdeep. apply build_guard. by left.
  - intros rec depth child rest children visited visited' Hty Hrec.
    simpl. by rewrite Hty, Hrec.
Qed.

Lemma build_depth_cap_witness :
  (exists t,
      ws_build deep_ws "p0" = Some t /\
      Forall within_cap (subtrees t) /\ leveled 0 t) /\
  build (ws_retrieve deep_ws) (ws_list deep_ws) (ws_fuel deep_ws) 1 "p4" 5 ∅
  = Some (Null, ∅).
Proof.
  destruct (build_depth_cap (ws_retrieve deep_ws) nat (ws_list deep_ws)
              (ws_fuel deep_ws)) as (Htree & Hguard & _).
  split.
  - eexists. split; [vm_compute; reflexivity|].
    apply (Htree "p0"). vm_compute. reflexivity.
  - apply Hguard. unfold MAX_DEPTH. lia.
Defined.

(** C4: a page id already in the visited set is skipped, the call returning
    [null]; whenever every listing ends, [buildSitemapTree] returns, and the
    page ids of the tree it returns are pairwise distinct; in particular it
    returns on every finite workspace, cyclic or not. *)
Theorem visited_guard :
  (forall (pages_retrieve : string -> option page) (Cursor : Type)
          (blocks_children_list :
             string -> option Cursor -> option (list_response Cursor))
          (lfuel : nat),
      (forall pageId,
          is_Some (getChildPages blocks_children_list lfuel pageId)) ->
      (forall fuel pageId depth (visited : gset string),
          pageId ∈ visited ->
          build pages_retrieve blocks_children_list lfuel (S fuel) pageId
            depth visited
          = Some (Null, visited)) /\
      (forall pageId,
          exists t,
            buildSitemapTree pages_retrieve blocks_children_list lfuel pageId
            = Some t /\
            NoDup (page_ids t))) /\
  (forall (ws : workspace) (pageId : string),
      exists t, ws_build ws pageId = Some t /\ NoDup (page_ids t)).
Proof.
  split.
  - intros retrieve Cursor list lfuel Hlist. split.
    + intros fuel pageId depth visited Hv. apply build_guard. by right.
    + intros pageId. by apply buildSitemapTree_returns.
  - intros ws pageId. apply buildSitemapTree_returns.
    apply ws_listing_returns.
Qed.

Lemma visited_guard_witness :
  build (ws_retrieve cyclic_ws) (ws_list cyclic_ws) (ws_fuel cyclic_ws) 5 "a" 2
    {["a"; "b"]}
  = Some (Null, {["a"; "b"]}) /\
  exists t, ws_build cyclic_ws "a" = Some t /\ NoDup (page_ids t).
Proof.
  destruct visited_guard as [Hany _].
  destruct (Hany (ws_retrieve cyclic_ws) nat (ws_list cyclic_ws)
              (ws_fuel cyclic_ws) (ws_listing_returns cyclic_ws))
    as [Hguard Hrun].
  split.
  - apply Hguard. set_solver.
  - apply Hrun.
Defined.

(** C10: in every tree [buildSitemapTree] returns, a node of type
    ['database'] has no children, whatever the workspace holds under its id;
    the builder adds it with an empty children array and makes no recursive
    call for it.  (Page objects have [object] ['page'].) *)
Theorem database_nodes_are_leaves :
  forall (pages_retrieve : string -> option page) (Cursor : Type)
         (blocks_children_list :
            string -> option Cursor -> option (list_response Cursor))
         (lfuel : nat),
    (forall page_id p, pages_retrieve page_id = Some p -> object p = "page") ->
    (forall pageId t,
        buildSitemapTree pages_retrieve blocks_children_list lfuel pageId
        = Some t ->
        Forall database_is_leaf (subtrees t)) /\
    (forall rec depth child rest children visited,
        child_type child = "database" ->
        children_loop rec depth (child :: rest) children visited =
        children_loop rec depth rest
          (children ++ [Node (database_leaf child) [] (depth + 1)]) visited).
Proof.
  intros retrieve Cursor list lfuel Hobj. split.
  - intros pageId t [v' Hrun]%buildSitemapTree_Some.
    eapply build_database_leaves; [exact Hobj|exact Hrun].
  - intros rec depth child rest children visited Hty. simpl.
    rewrite Hty. done.
Qed.

Lemma database_nodes_are_leaves_witness :
  (exists n, nodes cyclic_ws !! "d" = Some n /\ node_blocks n <> []) /\
  exists t,
    ws_build cyclic_ws "a" = Some t /\ Forall database_is_leaf (subtrees t).
Proof.
  split.
  - eexists. split; [vm_compute; reflexivity|]. discriminate.
  - destruct (database_nodes_are_leaves (ws_retrieve cyclic_ws) nat
                (ws_list cyclic_ws) (ws_fuel cyclic_ws)) as [Hleaf _].
    + apply workspace_of_pages.
      repeat constructor; simpl; intros p [= <-]; reflexivity.
    + eexists. split; [vm_compute; reflexivity|].
      apply (Hleaf "a"). vm_compute. reflexivity.
Defined.

(** ** Publisher *)

Lemma appended_app sent1 sent2 :
  appended (sent1 ++ sent2) = appended sent1 ++ appended sent2.
Proof.
  induction sent1 as [|[[b|b|b batch] [|]] sent1 IH]; simpl;
    by rewrite ?IH.
Qed.

Lemma deletions_app sent1 sent2 :
  deletions (sent1 ++ sent2) = deletions sent1 ++ deletions sent2.
Proof.
  induction sent1 as [|[[b|b|b batch] ok] sent1 IH]; simpl;
    by rewrite ?IH.
Qed.

Lemma slice_batch {A} (l : list A) i :
  slice i (i + 100) l = take 100 (drop i l).
Proof. unfold slice. by replace (i + 100 - i) with 100 by lia. Qed.

Section PublisherFacts.

Variable World : Type.
Variable Cursor : Type.
Variable SITEMAP_PAGE_ID : string.
Variable list_children : World -> string -> option (list_response Cursor).
Variable delete_block : World -> string -> World * bool.
Variable append_children :
  World -> string -> list notion_block -> World * bool.

(** The delete loop sends one delete request per block, in order, and no
    append. *)
Lemma delete_loop_log blocks :
  forall w sent,
    appended (snd (delete_loop delete_block blocks w sent)) = appended sent /\
    deletions (snd (delete_loop delete_block blocks w sent)) =
    deletions sent ++ (block_id <$> blocks).
Proof.
  induction blocks as [|b bs IH]; intros w sent; simpl.
  - by rewrite app_nil_r.
  - destruct (delete_block w (block_id b)) as [w1 ok].
    destruct (IH w1 (sent ++ [(delete_request (block_id b), ok)]))
      as [Happ Hdel].
    rewrite Happ, Hdel, appended_app, deletions_app. simpl.
    by rewrite app_nil_r, <- app_assoc.
Qed.

(** The append loop, from index [i]: the batches it appends are non-empty,
    of at most 100 blocks, the first one the slice at [i]; put end to end
    they are the blocks from [i] on when the loop ends, and a prefix of them
    when an append throws. *)
Lemma append_loop_batches fuel :
  forall i allBlocks w sent,
    length allBlocks - i < fuel ->
    exists r batches,
      append_loop SITEMAP_PAGE_ID append_children fuel i allBlocks w sent
      = Some r /\
      appended (log r) = appended sent ++ batches /\
      deletions (log r) = deletions sent /\
      Forall (fun batch => 0 < length batch <= 100) batches /\
      concat batches `prefix_of` drop i allBlocks /\
      (returned r = true -> concat batches = drop i allBlocks) /\
      (batches = [] \/
       exists rest, batches = take 100 (drop i allBlocks) :: rest).
Proof.
  induction fuel as [|fuel IH]; intros i allBlocks w sent Hfuel; [lia|].
  simpl. destruct (Nat.ltb_spec i (length allBlocks)) as [Hi|Hi].
  - rewrite slice_batch.
    destruct (append_children w SITEMAP_PAGE_ID (take 100 (drop i allBlocks)))
      as [w1 [|]].
    + destruct (IH (i + 100) allBlocks w1
                  (sent ++ [(append_request SITEMAP_PAGE_ID
                               (take 100 (drop i allBlocks)), true)]))
        as (r & batches & Hrun & Happ & Hdel & Hlen & Hpre & Hall & _);
        [lia|].
      exists r, (take 100 (drop i allBlocks) :: batches).
      split; [exact Hrun|]. split.
      { rewrite Happ, appended_app. simpl. by rewrite <- app_assoc. }
      split.
      { rewrite Hdel, deletions_app. simpl. by rewrite app_nil_r. }
      split.
      { constructor; [|exact Hlen].
        rewrite length_take, length_drop. lia. }
      split.
      { destruct Hpre as [k Hk]. exists k. simpl.
        by rewrite <- app_assoc, <- Hk, page_then_rest. }
      split.
      { intros Hret. simpl. by rewrite (Hall Hret), page_then_rest. }
      right. eauto.
    + eexists _, []. split; [reflexivity|]. simpl.
      rewrite appended_app, deletions_app. simpl. rewrite !app_nil_r.
      split; [done|]. split; [done|].
      split; [constructor|]. split; [apply prefix_nil|].
      split; [done|]. by left.
  - eexists _, []. split; [reflexivity|]. simpl. rewrite app_nil_r.
    split; [done|]. split; [done|].
    split; [constructor|]. split; [apply prefix_nil|].
    split; [|by left]. intros _. by rewrite drop_ge.
Qed.




(** One call of [updateSitemapPage]: it returns or rethrows, never runs out
    of fuel; it deletes the blocks of the one response to its listing; and
    what it appends are batches of [metadataBlocks] followed by [blocks]. *)
Lemma updateSitemapPage_total now blocks w :
  exists r,
    updateSitemapPage SITEMAP_PAGE_ID list_children delete_block
      append_children now blocks w = Some r /\
    Forall (fun batch => 0 < length batch <= 100) (appended (log r)) /\
    concat (appended (log r)) `prefix_of` (metadataBlocks now ++ blocks) /\
    (returned r = true ->
     concat (appended (log r)) = metadataBlocks now ++ blocks) /\
    (appended (log r) = [] \/
     exists rest,
       appended (log r) = take 100 (metadataBlocks now ++ blocks) :: rest) /\
    (forall response,
        list_children w SITEMAP_PAGE_ID = Some response ->
        deletions (log r) = block_id <$> results response) /\
    (list_children w SITEMAP_PAGE_ID = None ->
     returned r = false /\ appended (log r) = []).
Proof.
  unfold updateSitemapPage.
  destruct (list_children w SITEMAP_PAGE_ID) as [existing|].
  - pose proof (delete_loop_log (results existing) w
                  [(list_request SITEMAP_PAGE_ID, true)]) as [Happ Hdel].
    destruct (delete_loop _ _ _ _) as [w1 sent]. simpl in Happ, Hdel.
    destruct (append_loop_batches (S (length (metadataBlocks now ++ blocks)))
                0 (metadataBlocks now ++ blocks) w1 sent)
      as (r & batches & Hrun & Hbat & Hdels & Hlen & Hpre & Hall & Hfirst);
      [lia|].
    rewrite Happ in Hbat. simpl in Hbat. rewrite drop_0 in Hpre, Hall, Hfirst.
    exists r. rewrite Hbat, Hdels, Hdel.
    split; [exact Hrun|]. split; [exact Hlen|]. split; [exact Hpre|].
    split; [exact Hall|]. split; [exact Hfirst|].
    split; [by intros response [= <-]|done].
  - eexists. split; [done|]. simpl.
    split; [constructor|]. split; [apply prefix_nil|].
    split; [done|]. split; [by left|]. done.
Qed.

End PublisherFacts.

(** *** The publisher on a reference workspace *)






(** The listing of the target page is not paginated: the page holds 101
    blocks from an earlier run, the one listing returns the first 100 of
    them, only these are deleted, and after the run, which returns normally,
    the 101st old block is still the first block of the page, ahead of the
    new content. *)
Lemma stale_block_survives_update :
  exists r,
    ws_update "sitemap" "1/5/2024, 10:00:00"
      (treeToNotionBlocks small_tree 0) stale_ws = Some r /\
    returned r = true /\
    deletions (log r) = block_id <$> take 100 stale_blocks /\
    (block_id <$> stale_blocks) !! 100 = Some "old-100" /\
    (fmap block_id <$> (node_blocks <$> nodes (final r) !! "sitemap")) =
      Some ["old-100"; "new-0"; "new-1"; "new-2"; "new-3"; "new-4"; "new-5"].
Proof.
  eexists. split; [vm_compute; reflexivity|].
  split; [reflexivity|]. split; [vm_compute; reflexivity|].
  split; vm_compute; reflexivity.
Qed.




(** When the target page holds no more than one listing returns and every
    deletion succeeds, the page is wiped before the new content goes in. *)
Example short_page_is_wiped :
  (fun r => fmap block_id <$> (node_blocks <$> nodes (final r) !! "sitemap"))
    <$> ws_update "sitemap" "1/5/2024, 10:00:00" [] short_ws
  = Some (Some ["new-0"; "new-1"]).
Proof. vm_compute. reflexivity. Qed.



(** * Further properties *)

(** ** Urls *)

Lemma chars_strip_hyphens s :
  chars (strip_hyphens s) = filter (fun c => c <> "-"%char) (chars s).
Proof.
  induction s as [|c s IH]; simpl; [done|].
  destruct (Ascii.eqb_spec c "-") as [->|Hc].
  - rewrite filter_cons_False by (intros H; by apply H). exact IH.
  - rewrite filter_cons_True by exact Hc. simpl. by rewrite IH.
Qed.

Lemma strip_hyphens_fixed s :
  ("-"%char ∉ chars s) -> strip_hyphens s = s.
Proof.
  induction s as [|c s IH]; simpl; [done|]. intros Hnot.
  destruct (Ascii.eqb_spec c "-") as [->|Hc].
  - exfalso. apply Hnot. apply list_elem_of_here.
  - rewrite IH; [done|]. intros Hin. apply Hnot. by apply list_elem_of_further.
Qed.

(** X1: the id put in a url has no hyphen left and is otherwise the id, its
    other characters in their order; stripping is idempotent, so an id with
    and without hyphens gives the same url. *)
Theorem strip_hyphens_spec :
  forall s : string,
    chars (strip_hyphens s) = filter (fun c => c <> "-"%char) (chars s) /\
    ("-"%char ∉ chars (strip_hyphens s)) /\
    notion_url (strip_hyphens s) = notion_url s.
Proof.
  intros s. split; [apply chars_strip_hyphens|].
  assert ("-"%char ∉ chars (strip_hyphens s)) as Hnone.
  { rewrite chars_strip_hyphens. intros [Hc _]%list_elem_of_filter. by apply Hc. }
  split; [exact Hnone|]. unfold notion_url.
  by rewrite (strip_hyphens_fixed _ Hnone).
Qed.

Example notion_url_uuid :
  notion_url "1429989f-e8ac-4eff-bc8f-57f56486db54"
  = "https://www.notion.so/1429989fe8ac4effbc8f57f56486db54".
Proof. reflexivity. Qed.

(** ** Title extraction *)

Lemma prop_elem key props v :
  prop key props = Some v -> (key, v) ∈ props.
Proof.
  unfold prop. destruct (find _ props) as [[k v']|] eqn:Hfind; [|done].
  simpl. intros [= <-]. apply find_some in Hfind as [Hin Hkey].
  simpl in Hkey. apply String.eqb_eq in Hkey as ->.
  by apply list_elem_of_In.
Qed.

Lemma has_text_spec v :
  has_text v = true <-> exists t, title_text v = Some t /\ t <> "".
Proof.
  unfold has_text, truthy. destruct (title_text v) as [t|].
  - destruct (String.eqb_spec t "") as [->|Hne]; simpl.
    + split; [done|]. by intros (t' & [= <-] & Hne).
    + split; [eauto|done].
  - split; [done|]. by intros (t & ? & _).
Qed.

Lemma has_text_prop_none key props :
  Forall (fun kv : string * property => has_text (Some (snd kv)) = false) props ->
  has_text (prop key props) = false.
Proof.
  intros Hall. destruct (prop key props) as [v|] eqn:Hv; [|done].
  apply prop_elem in Hv. rewrite List.Forall_forall in Hall.
  apply list_elem_of_In in Hv. apply (Hall _ Hv).
Qed.

(** X2: whenever [extractTitle] returns, the title is not empty, and it is
    either ['Untitled'] or the first title text of one of the page's
    properties. *)
Theorem extractTitle_nonempty :
  forall (p : page) (t : string),
    extractTitle p = Some t ->
    t <> "" /\
    (t = "Untitled" \/
     exists props key v,
       properties p = Some props /\
       (key, v) ∈ props /\
       title_text (Some v) = Some t).
Proof.
  intros p t. unfold extractTitle.
  destruct (properties p) as [props|]; [|done].
  assert (forall key,
             has_text (prop key props) = true ->
             title_text (prop key props) = Some t ->
             t <> "" /\
             (t = "Untitled" \/
              exists props' key' v,
                Some props = Some props' /\ (key', v) ∈ props' /\
                title_text (Some v) = Some t)) as Hkey.
  { intros key Hhas Ht. apply has_text_spec in Hhas as (t' & Ht' & Hne).
    rewrite Ht in Ht'. injection Ht' as <-. split; [exact Hne|]. right.
    destruct (prop key props) as [v|] eqn:Hv; [|done].
    exists props, key, v. split; [done|]. split; [by apply prop_elem|done]. }
  destruct (has_text (prop "title" props)) eqn:E1; [by apply Hkey|].
  destruct (has_text (prop "Name" props)) eqn:E2; [by apply Hkey|].
  destruct (find _ props) as [[k v]|] eqn:E3.
  - apply find_some in E3 as [Hin [_ Hhas]%andb_prop]. cbn [snd] in *.
    intros Ht. apply has_text_spec in Hhas as (t' & Ht' & Hne).
    rewrite Ht in Ht'. injection Ht' as <-. split; [exact Hne|]. right.
    exists props, k, v. split; [done|]. split; [by apply list_elem_of_In|done].
  - intros [= <-]. split; [done|by left].
Qed.

Lemma extractTitle_nonempty_witness :
  "Home" <> "" /\
  ("Home" = "Untitled" \/
   exists props key v,
     properties (titled "Home") = Some props /\
     (key, v) ∈ props /\
     title_text (Some v) = Some "Home").
Proof. apply (extractTitle_nonempty (titled "Home") "Home"). reflexivity. Defined.

(** X3: the order of the three tests of [extractTitle]: a non-empty text
    under the key [title] is returned whatever the other properties are;
    failing that, a non-empty text under the key [Name]; and when no property
    has a non-empty title text (no title array, an empty one, an empty
    text), the result is ['Untitled']. *)
Theorem extractTitle_order :
  forall (p : page) (props : list (string * property)),
    properties p = Some props ->
    (forall t,
        title_text (prop "title" props) = Some t -> t <> "" ->
        extractTitle p = Some t) /\
    (forall t,
        has_text (prop "title" props) = false ->
        title_text (prop "Name" props) = Some t -> t <> "" ->
        extractTitle p = Some t) /\
    (Forall (fun kv : string * property => has_text (Some (snd kv)) = false)
       props ->
     extractTitle p = Some "Untitled").
Proof.
  intros p props Hprops. unfold extractTitle. rewrite Hprops.
  split; [|split].
  - intros t Ht Hne.
    assert (has_text (prop "title" props) = true) as ->
      by (apply has_text_spec; eauto).
    exact Ht.
  - intros t Hno Ht Hne. rewrite Hno.
    assert (has_text (prop "Name" props) = true) as ->
      by (apply has_text_spec; eauto).
    exact Ht.
  - intros Hall. rewrite !has_text_prop_none by exact Hall.
    destruct (find _ props) as [[k v]|] eqn:E3; [|done].
    apply find_some in E3 as [Hin [_ Hhas]%andb_prop].
    rewrite List.Forall_forall in Hall. apply Hall in Hin. congruence.
Qed.

Lemma extractTitle_order_witness :
  extractTitle keyed_page = Some "By key" /\
  extractTitle blank_page = Some "Untitled".
Proof.
  split.
  - apply (proj1 (extractTitle_order keyed_page _ eq_refl));
      [reflexivity|discriminate].
  - apply (proj2 (proj2 (extractTitle_order blank_page _ eq_refl))).
    repeat constructor.
Defined.

(** ** Markers *)

(** X4: [getEmojiForDepth] never indexes past the end of [emojis]: a
    database gets the database marker at every depth; any other node gets
    one of the five markers, a different one at each depth from 0 to 4, and
    the last one at every depth from 4 on. *)
Theorem getEmojiForDepth_spec :
  forall (depth : nat) (type : string),
    (type = "database" -> getEmojiForDepth depth type = "🗃️") /\
    (type <> "database" ->
     emojis !! Nat.min depth 4 = Some (getEmojiForDepth depth type) /\
     (4 <= depth -> getEmojiForDepth depth type = "•") /\
     (forall depth',
         depth <= 4 -> depth' <= 4 ->
         getEmojiForDepth depth' type = getEmojiForDepth depth type ->
         depth' = depth)).
Proof.
  intros depth type. unfold getEmojiForDepth. split.
  - intros ->. done.
  - intros Hty. apply String.eqb_neq in Hty. rewrite Hty. simpl length.
    change (5 - 1) with 4. split; [|split].
    + destruct (Nat.min_spec depth 4) as [[Hlt ->]|[_ ->]]; [|done].
      do 4 (destruct depth as [|depth]; [done|]). lia.
    + intros Hd. by rewrite Nat.min_r.
    + intros depth' Hd Hd'. rewrite !Nat.min_l by done.
      assert (forall n, n <= 4 -> n = 0 \/ n = 1 \/ n = 2 \/ n = 3 \/ n = 4)
        as Hcases by (intros; lia).
      destruct (Hcases _ Hd) as [->|[->|[->|[->| ->]]]];
        destruct (Hcases _ Hd') as [->|[->|[->|[->| ->]]]];
        cbv; intros H; first [reflexivity|discriminate H].
Qed.

(** ** Counting *)

Lemma countPages_subtrees t : countPages t = length (subtrees t).
Proof.
  induction t as [|info cs d IH] using tree_ind; [done|].
  rewrite countPages_Node, subtrees_Node. simpl. f_equal.
  rewrite length_flat_map_foldr.
  induction IH as [|c cs Hc _ IHcs]; simpl; [done|]. by rewrite Hc, IHcs.
Qed.

(** X5: [countPages] counts every node of the tree, pages and databases
    alike, and [null] children as nothing; it is 0 only for [null]. *)
Theorem countPages_counts_nodes :
  forall t : tree,
    countPages t = length (subtrees t) /\
    (countPages t = 0 <-> t = Null).
Proof.
  intros t. split; [apply countPages_subtrees|].
  destruct t as [|info cs d]; [done|]. rewrite countPages_Node.
  split; [lia|done].
Qed.

Lemma getEmojiForDepth_spec_witness :
  getEmojiForDepth 7 "page" = "•" /\ getEmojiForDepth 7 "database" = "🗃️".
Proof.
  destruct (getEmojiForDepth_spec 7 "page") as [_ Hpage].
  destruct (getEmojiForDepth_spec 7 "database") as [Hdb _].
  split.
  - apply Hpage; [discriminate|lia].
  - apply Hdb. reflexivity.
Defined.

(** ** Child lister *)

Lemma kept_from blocks c :
  c ∈ kept blocks ->
  exists b,
    b ∈ blocks /\
    child_id c = block_id b /\
    child_title c = block_title b /\
    (block_type b = "child_page" /\ child_type c = "page" \/
     block_type b = "child_database" /\ child_type c = "database").
Proof.
  unfold kept. intros Hc. apply list_elem_of_In, in_flat_map in Hc
    as (b & Hb & Hc).
  exists b. split; [by apply list_elem_of_In|].
  destruct (String.eqb_spec (block_type b) "child_page") as [Hp|_].
  - destruct Hc as [<-|[]]. simpl. auto.
  - destruct (String.eqb_spec (block_type b) "child_database") as [Hd|_].
    + destruct Hc as [<-|[]]. simpl. auto.
    + destruct Hc.
Qed.

(** X6: every item [getChildPages] returns is typed ['page'] or
    ['database'], so the builder's loop has a branch for each, and carries
    the id and title of a listed block of type [child_page] or
    [child_database] respectively. *)
Theorem getChildPages_items :
  forall (Cursor : Type)
         (blocks_children_list :
            string -> option Cursor -> option (list_response Cursor))
         (fuel : nat) (pageId : string) (items : list child_item),
    getChildPages blocks_children_list fuel pageId = Some items ->
    Forall
      (fun c =>
         exists b,
           b ∈ flat_map results
                 (pages_listed blocks_children_list fuel pageId None) /\
           child_id c = block_id b /\
           child_title c = block_title b /\
           (block_type b = "child_page" /\ child_type c = "page" \/
            block_type b = "child_database" /\ child_type c = "database"))
      items.
Proof.
  intros Cursor list fuel pageId items Hrun.
  apply list_loop_pages in Hrun. simpl in Hrun. subst items.
  apply List.Forall_forall. intros c Hc. apply kept_from.
  by apply list_elem_of_In.
Qed.

Lemma getChildPages_items_witness :
  Forall
    (fun c =>
       exists b,
         b ∈ flat_map results
               (pages_listed (ws_list office_ws) (ws_fuel office_ws)
                  "root-1" None) /\
         child_id c = block_id b /\
         child_title c = block_title b /\
         (block_type b = "child_page" /\ child_type c = "page" \/
          block_type b = "child_database" /\ child_type c = "database"))
    [{| child_id := "a-b-c"; child_title := "Rooms"; child_type := "page" |};
     {| child_id := "db-1"; child_title := ""; child_type := "database" |}].
Proof.
  apply (getChildPages_items nat (ws_list office_ws) (ws_fuel office_ws)
           "root-1").
  vm_compute. reflexivity.
Defined.

Lemma list_loop_endless {Cursor}
    (blocks_children_list :
       string -> option Cursor -> option (list_response Cursor)) pageId :
  (forall cursor,
      exists response,
        blocks_children_list pageId cursor = Some response /\
        has_more response = true) ->
  forall fuel children cursor,
    list_loop blocks_children_list fuel pageId children cursor = None.
Proof.
  intros Hmore. induction fuel as [|fuel IH]; intros children cursor; [done|].
  simpl. destruct (Hmore cursor) as (response & -> & ->). apply IH.
Qed.

(** X7: the listing loop has no bound of its own: against a remote that
    answers every listing call of a page with [has_more: true], no number of
    calls makes [getChildPages] return. *)
Theorem getChildPages_needs_last_page :
  forall (Cursor : Type)
         (blocks_children_list :
            string -> option Cursor -> option (list_response Cursor))
         (pageId : string),
    (forall cursor,
        exists response,
          blocks_children_list pageId cursor = Some response /\
          has_more response = true) ->
    forall fuel, getChildPages blocks_children_list fuel pageId = None.
Proof.
  intros Cursor list pageId Hmore fuel. by apply list_loop_endless.
Qed.

Lemma getChildPages_needs_last_page_witness :
  getChildPages endless_list 1000 "p" = None.
Proof.
  apply (getChildPages_needs_last_page nat endless_list "p").
  intros cursor. eexists. split; reflexivity.
Defined.

(** ** Tree builder *)

Lemma extractTitle_not_empty p t : extractTitle p = Some t -> t <> "".
Proof.
  unfold extractTitle. destruct (properties p) as [props|]; [|done].
  assert (forall v, has_text v = true -> title_text v = Some t -> t <> "")
    as Htext.
  { intros v (t' & Ht' & Hne)%has_text_spec Ht. congruence. }
  destruct (has_text (prop "title" props)) eqn:E1; [by apply Htext|].
  destruct (has_text (prop "Name" props)) eqn:E2; [by apply Htext|].
  destruct (find _ props) as [[k v]|] eqn:E3.
  - apply find_some in E3 as [_ [_ Hhas]%andb_prop]. by apply Htext.
  - by intros [= <-].
Qed.

Lemma or_else_not_empty a b : b <> "" -> or_else a b <> "".
Proof.
  intros Hb. unfold or_else, truthy.
  by destruct (String.eqb_spec a "").
Qed.

Lemma root_ids_app ts1 ts2 : root_ids (ts1 ++ ts2) = root_ids ts1 ++ root_ids ts2.
Proof. unfold root_ids. apply omap_app. Qed.

Section BuilderMore.

Variable pages_retrieve : string -> option page.
Variable Cursor : Type.
Variable blocks_children_list :
  string -> option Cursor -> option (list_response Cursor).
Variable lfuel : nat.

Local Abbreviation build_on :=
  (build pages_retrieve blocks_children_list lfuel).

(** What a call that returns a node went through. *)
Lemma build_Node fuel pageId d v info cs d' v' :
  build_on (S fuel) pageId d v = Some (Node info cs d', v') ->
  getPageDetails pages_retrieve pageId = Some info /\
  d' = d /\
  exists items,
    getChildPages blocks_children_list lfuel pageId = Some items /\
    children_loop (build_on fuel) d items [] ({[pageId]} ∪ v)
    = Some (cs, v').
Proof.
  simpl. destruct (_ || _); [done|].
  destruct (getPageDetails pages_retrieve pageId) as [info'|]; [|done].
  destruct (getChildPages blocks_children_list lfuel pageId) as [items|];
    [|done].
  destruct (children_loop _ d items [] _) as [[cs' v1]|] eqn:Hloop; [|done].
  intros [= <- <- <- <-]. eauto.
Qed.


Lemma build_well_labelled fuel pageId d v t v' :
  build_on fuel pageId d v = Some (t, v') ->
  Forall well_labelled (subtrees t).
Proof.
  apply (build_inv pages_retrieve Cursor blocks_children_list lfuel
           (fun _ t => Forall well_labelled (subtrees t))).
  - constructor.
  - intros d0 c _. constructor; [|constructor]. simpl.
    split; [done|]. by apply or_else_not_empty.
  - intros d0 p info cs _ Hinfo Hcs. rewrite subtrees_Node. constructor.
    + apply getPageDetails_Some in Hinfo as (pg & _ & -> & Ht). simpl.
      split; [done|]. eapply extractTitle_not_empty. exact Ht.
    + by apply Forall_flat_map_each.
Qed.


End BuilderMore.

(** One call of the builder. *)
Lemma build_S pages_retrieve {Cursor}
    (blocks_children_list :
       string -> option Cursor -> option (list_response Cursor))
    lfuel fuel pageId depth (visited : gset string) :
  build pages_retrieve blocks_children_list lfuel (S fuel) pageId depth visited
  = if (MAX_DEPTH <? depth) || bool_decide (pageId ∈ visited) then
      Some (Null, visited)
    else
      match getPageDetails pages_retrieve pageId with
      | None => Some (Null, {[pageId]} ∪ visited)
      | Some pageDetails =>
          match getChildPages blocks_children_list lfuel pageId with
          | None => None
          | Some childItems =>
              match children_loop
                      (build pages_retrieve blocks_children_list lfuel fuel)
                      depth childItems [] ({[pageId]} ∪ visited) with
              | None => None
              | Some (children, visited') =>
                  Some (Node pageDetails children depth, visited')
              end
          end
      end.
Proof. reflexivity. Qed.

(** X8: a page whose details are fetched but whose first listing call
    throws is not an error for the builder: it becomes a node without
    children. *)
Theorem unlistable_page_is_a_leaf :
  forall (pages_retrieve : string -> option page) (Cursor : Type)
         (blocks_children_list :
            string -> option Cursor -> option (list_response Cursor))
         (lfuel : nat) (pageId : string) (info : details),
    getPageDetails pages_retrieve pageId = Some info ->
    blocks_children_list pageId None = None ->
    buildSitemapTree pages_retrieve blocks_children_list (S lfuel) pageId
    = Some (Node info [] 0).
Proof.
  intros retrieve Cursor list lfuel pageId info Hinfo Hlist.
  unfold buildSitemapTree. change (MAX_DEPTH + 2) with (S 5).
  rewrite build_S. rewrite bool_decide_eq_false_2 by set_solver.
  cbn [Nat.ltb Nat.leb MAX_DEPTH orb].
  rewrite Hinfo. unfold getChildPages. cbn [list_loop]. rewrite Hlist. done.
Qed.

Lemma unlistable_page_is_a_leaf_witness :
  buildSitemapTree (ws_retrieve flaky_ws) (fun _ _ => @None (list_response nat))
    1 "root"
  = Some (Node {| id := "root"; title := "Root"; url := notion_url "root";
                  type := "page";
                  lastEdited := Some "2024-05-01T10:00:00.000Z" |} [] 0).
Proof.
  apply (unlistable_page_is_a_leaf (ws_retrieve flaky_ws) nat
           (fun _ _ => None) 0 "root"); reflexivity.
Defined.

(** The two ways a build from the start page ends. *)
Lemma buildSitemapTree_cases pages_retrieve {Cursor}
    (blocks_children_list :
       string -> option Cursor -> option (list_response Cursor))
    lfuel pageId :
  (forall p, is_Some (getChildPages blocks_children_list lfuel p)) ->
  match getPageDetails pages_retrieve pageId with
  | None =>
      buildSitemapTree pages_retrieve blocks_children_list lfuel pageId
      = Some Null
  | Some info =>
      exists children,
        buildSitemapTree pages_retrieve blocks_children_list lfuel pageId
        = Some (Node info children 0)
  end.
Proof.
  intros Hlist.
  unfold buildSitemapTree. change (MAX_DEPTH + 2) with (S 5).
  rewrite build_S. rewrite bool_decide_eq_false_2 by set_solver.
  cbn [Nat.ltb Nat.leb MAX_DEPTH orb].
  destruct (getPageDetails pages_retrieve pageId) as [info|]; [|done].
  destruct (Hlist pageId) as [items ->].
  destruct (children_loop_returns
              (build pages_retrieve blocks_children_list lfuel 5) 0) with
    (items := items) (children := @nil tree)
    (v := {[pageId]} ∪ (∅ : gset string))
    as [[cs v1] ->]; [|eauto].
  intros p w. apply build_returns; [exact Hlist|lia|unfold MAX_DEPTH; lia].
Qed.

(** X9: whenever every listing ends, [buildSitemapTree] returns [null]
    exactly when the details of the start page cannot be fetched; otherwise
    the root of the tree carries exactly those details, with depth 0.
    Failures further down never make the whole build fail. *)
Theorem buildSitemapTree_root :
  forall (pages_retrieve : string -> option page) (Cursor : Type)
         (blocks_children_list :
            string -> option Cursor -> option (list_response Cursor))
         (lfuel : nat),
    (forall pageId,
        is_Some (getChildPages blocks_children_list lfuel pageId)) ->
    forall pageId,
      match getPageDetails pages_retrieve pageId with
      | None =>
          buildSitemapTree pages_retrieve blocks_children_list lfuel pageId
          = Some Null
      | Some info =>
          exists children,
            buildSitemapTree pages_retrieve blocks_children_list lfuel pageId
            = Some (Node info children 0)
      end.
Proof.
  intros retrieve Cursor list lfuel Hlist pageId.
  by apply buildSitemapTree_cases.
Qed.

Lemma buildSitemapTree_root_witness :
  ws_build partial_ws "p" = Some Null /\
  exists children,
    ws_build cyclic_ws "a" =
    Some (Node {| id := "a"; title := "A"; url := notion_url "a";
                  type := "page";
                  lastEdited := Some "2024-05-01T10:00:00.000Z" |}
            children 0).
Proof.
  split.
  - apply (buildSitemapTree_root (ws_retrieve partial_ws) nat
             (ws_list partial_ws) (ws_fuel partial_ws)
             (ws_listing_returns partial_ws) "p").
  - apply (buildSitemapTree_root (ws_retrieve cyclic_ws) nat
             (ws_list cyclic_ws) (ws_fuel cyclic_ws)
             (ws_listing_returns cyclic_ws) "a").
Defined.

(** X10: every node of a tree [buildSitemapTree] returns, page or database,
    has a non-empty title and the url of its own id (which has no
    hyphen). *)
Theorem built_nodes_are_labelled :
  forall (pages_retrieve : string -> option page) (Cursor : Type)
         (blocks_children_list :
            string -> option Cursor -> option (list_response Cursor))
         (lfuel : nat) (pageId : string) (t : tree),
    buildSitemapTree pages_retrieve blocks_children_list lfuel pageId
    = Some t ->
    Forall well_labelled (subtrees t).
Proof.
  intros retrieve Cursor list lfuel pageId t [v' Hrun]%buildSitemapTree_Some.
  eapply build_well_labelled. exact Hrun.
Qed.

Lemma built_nodes_are_labelled_witness :
  exists t,
    ws_build office_ws "root-1" = Some t /\
    Forall well_labelled (subtrees t) /\
    url <$> (subtrees t !! 1 ≫= root_info) = Some "https://www.notion.so/abc" /\
    title <$> (subtrees t !! 2 ≫= root_info) = Some "Untitled Database".
Proof.
  eexists. split; [vm_compute; reflexivity|]. split.
  - apply (built_nodes_are_labelled (ws_retrieve office_ws) nat
             (ws_list office_ws) (ws_fuel office_ws) "root-1").
    vm_compute. reflexivity.
  - split; reflexivity.
Defined.



(** ** Renderer *)

Lemma treeToNotionBlocks_leveled t :
  forall d,
    leveled d t ->
    treeToNotionBlocks t d = flat_map own_blocks (subtrees t).
Proof.
  induction t as [|info cs depth IH] using tree_ind; intros d; [done|].
  intros [-> Hcs]%leveled_Node.
  rewrite treeToNotionBlocks_Node, subtrees_Node. simpl. f_equal.
  rewrite Nat.add_1_r.
  induction IH as [|c cs Hc _ IHcs]; simpl; [done|].
  apply Forall_cons in Hcs as [Hlc Hlcs].
  by rewrite flat_map_app, (Hc _ Hlc), (IHcs Hlcs).
Qed.

(** The renderer goes by its own count of levels, not by the [depth]
    written in the nodes. *)
Example treeToNotionBlocks_ignores_depth_field :
  treeToNotionBlocks
    (Node {| id := "p"; title := "P"; url := "u"; type := "page";
             lastEdited := None |} [] 3) 0
  = [heading_1 [plain "🏢 P"]].
Proof. reflexivity. Qed.

(** X13: on a tree [buildSitemapTree] returns, the level the renderer counts
    is the [depth] the builder wrote in each node: the blocks are the nodes'
    own blocks, each rendered at the node's [depth], in preorder. *)
Theorem built_tree_rendered_by_depth :
  forall (pages_retrieve : string -> option page) (Cursor : Type)
         (blocks_children_list :
            string -> option Cursor -> option (list_response Cursor))
         (lfuel : nat) (pageId : string) (t : tree),
    buildSitemapTree pages_retrieve blocks_children_list lfuel pageId
    = Some t ->
    treeToNotionBlocks t 0 = flat_map own_blocks (subtrees t).
Proof.
  intros retrieve Cursor list lfuel pageId t [v' Hrun]%buildSitemapTree_Some.
  apply treeToNotionBlocks_leveled.
  by apply build_within_cap in Hrun as [_ Hlev].
Qed.

Lemma built_tree_rendered_by_depth_witness :
  exists t,
    ws_build deep_ws "p0" = Some t /\
    treeToNotionBlocks t 0 = flat_map own_blocks (subtrees t) /\
    length (treeToNotionBlocks t 0) = 6.
Proof.
  eexists. split; [vm_compute; reflexivity|]. split.
  - apply (built_tree_rendered_by_depth (ws_retrieve deep_ws) nat
             (ws_list deep_ws) (ws_fuel deep_ws) "p0").
    vm_compute. reflexivity.
  - reflexivity.
Defined.

Lemma node_block_marks depth info :
  0 < depth ->
  (has_db_suffix (node_block depth info) <-> type info = "database") /\
  bullet_bold (node_block depth info) = Some (Nat.eqb depth 1).
Proof.
  intros Hd. unfold node_block.
  destruct (Nat.eqb_spec depth 0) as [->|_]; [lia|].
  destruct (String.eqb_spec (type info) "database") as [Hdb|Hnot]; simpl.
  - done.
  - split; [|done]. split; [done|]. intros H. by apply Hnot in H.
Qed.

(** X14: below the root, a node's bullet ends with the [' [DB]'] item
    exactly when the node is typed ['database'], and its title is bold
    exactly at depth 1. *)
Theorem bullets_mark_databases :
  forall (info : details) (children : list tree) (depth : nat),
    Forall2
      (fun dn item =>
         (has_db_suffix item <-> type (snd dn) = "database") /\
         bullet_bold item = Some (Nat.eqb (fst dn) 1))
      (flat_map (preorder 1) children)
      (tail (treeToNotionBlocks (Node info children depth) 0)).
Proof.
  intros info children depth.
  rewrite treeToNotionBlocks_walk. simpl.
  apply Forall2_fmap_r, Forall_Forall2_diag.
  assert (Forall (fun dn : nat * details => 1 <= fst dn)
            (flat_map (preorder 1) children)) as Hdeep.
  { induction children as [|c cs IH]; simpl; [constructor|].
    apply Forall_app; split; [apply preorder_deeper|exact IH]. }
  eapply Forall_impl; [exact Hdeep|]. intros [d n] Hd.
  simpl in *. apply node_block_marks. lia.
Qed.

(** ** Publisher *)

Section PublisherMore.

Variable World : Type.
Variable Cursor : Type.
Variable target : string.
Variable list_children : World -> string -> option (list_response Cursor).
Variable delete_block : World -> string -> World * bool.
Variable append_children :
  World -> string -> list notion_block -> World * bool.

Lemma delete_loop_Forall (P : request * bool -> Prop) blocks :
  (forall b ok, P (delete_request b, ok)) ->
  forall w sent,
    Forall P sent -> Forall P (snd (delete_loop delete_block blocks w sent)).
Proof.
  intros HP. induction blocks as [|b bs IH]; intros w sent Hsent; simpl;
    [done|].
  destruct (delete_block w (block_id b)) as [w1 ok]. apply IH.
  apply Forall_app. split; [exact Hsent|]. by repeat constructor.
Qed.

Lemma append_loop_addressed fuel :
  forall i allBlocks w sent r,
    append_loop target append_children fuel i allBlocks w sent = Some r ->
    Forall (addressed_to target) sent ->
    Forall (addressed_to target) (log r).
Proof.
  induction fuel as [|fuel IH]; intros i allBlocks w sent r; simpl; [done|].
  destruct (i <? length allBlocks).
  - destruct (append_children w target _) as [w1 [|]].
    + intros Hrun Hsent. eapply IH; [exact Hrun|].
      apply Forall_app. split; [exact Hsent|]. by repeat constructor.
    + intros [= <-] Hsent. simpl.
      apply Forall_app. split; [exact Hsent|]. by repeat constructor.
  - by intros [= <-].
Qed.

(** The batches of the append loop are the slices at [i], [i + 100], ... *)
Lemma append_loop_slices fuel :
  forall i allBlocks w sent r,
    append_loop target append_children fuel i allBlocks w sent = Some r ->
    exists batches,
      appended (log r) = appended sent ++ batches /\
      (forall k batch,
          batches !! k = Some batch ->
          batch = take 100 (drop (i + 100 * k) allBlocks)) /\
      (length allBlocks <= i -> batches = []) /\
      (returned r = true ->
       length allBlocks <= i + 100 * length batches /\
       (i < length allBlocks ->
        i + 100 * length batches < length allBlocks + 100)).
Proof.
  induction fuel as [|fuel IH]; intros i allBlocks w sent r; simpl; [done|].
  destruct (Nat.ltb_spec i (length allBlocks)) as [Hi|Hi].
  - rewrite slice_batch.
    destruct (append_children w target _) as [w1 [|]].
    + intros (batches & Happ & Hk & Hnil & Hret)%IH.
      exists (take 100 (drop i allBlocks) :: batches).
      rewrite Happ, appended_app. simpl. rewrite <- app_assoc.
      split; [done|]. split; [|split; [intros; lia|]].
      * intros [|k] batch Hb; simpl in Hb.
        -- injection Hb as <-. do 2 f_equal. lia.
        -- apply Hk in Hb. rewrite Hb. do 2 f_equal. lia.
      * intros [Hlow Hup]%Hret. split; [lia|]. intros _.
        destruct (Nat.lt_ge_cases (i + 100) (length allBlocks)) as [Hlt|Hge].
        -- apply Hup in Hlt. lia.
        -- rewrite (Hnil Hge). simpl. lia.
    + intros [= <-]. exists []. simpl. rewrite appended_app. simpl.
      split; [done|]. split; [by intros k batch|]. split; [done|done].
  - intros [= <-]. exists []. simpl. rewrite app_nil_r.
    split; [done|]. split; [by intros k batch|]. split; [done|].
    intros _. split; lia.
Qed.

(** When the loop ends in a rethrow, the failed append is the last request
    sent; when it ends normally, every append went through. *)
Lemma append_loop_tolerated fuel :
  forall i allBlocks w sent r,
    append_loop target append_children fuel i allBlocks w sent = Some r ->
    Forall tolerated sent ->
    if returned r then Forall tolerated (log r)
    else exists pre batch,
        log r = pre ++ [(append_request target batch, false)] /\
        Forall tolerated pre.
Proof.
  induction fuel as [|fuel IH]; intros i allBlocks w sent r; simpl; [done|].
  destruct (i <? length allBlocks).
  - destruct (append_children w target _) as [w1 [|]].
    + intros Hrun Hsent. eapply IH; [exact Hrun|].
      apply Forall_app. split; [exact Hsent|].
      constructor; [by right|constructor].
    + intros [= <-] Hsent. simpl. eauto.
  - by intros [= <-].
Qed.

End PublisherMore.

(** X15: [updateSitemapPage] never lists or appends to any page other than
    the target: every listing and every append request it sends is addressed
    to [SITEMAP_PAGE_ID]. *)
Theorem requests_go_to_target :
  forall (World Cursor : Type) (SITEMAP_PAGE_ID : string)
         (list_children : World -> string -> option (list_response Cursor))
         (delete_block : World -> string -> World * bool)
         (append_children :
            World -> string -> list notion_block -> World * bool)
         (now : string) (blocks : list notion_block) (w : World)
         (r : run World),
    updateSitemapPage SITEMAP_PAGE_ID list_children delete_block
      append_children now blocks w = Some r ->
    Forall (addressed_to SITEMAP_PAGE_ID) (log r).
Proof.
  intros World Cursor target list_children delete_block append_children now
    blocks w r. unfold updateSitemapPage.
  destruct (list_children w target) as [existing|].
  - pose proof (delete_loop_Forall World delete_block (addressed_to target)
                  (results existing) (fun _ _ => I) w
                  [(list_request target, true)]) as Hdel.
    destruct (delete_loop _ _ _ _) as [w1 sent]. simpl in Hdel.
    intros Hrun. eapply append_loop_addressed; [exact Hrun|].
    apply Hdel. by repeat constructor.
  - intros [= <-]. simpl. by repeat constructor.
Qed.

Lemma requests_go_to_target_witness :
  exists r,
    ws_update "sitemap" "1/5/2024, 10:00:00" [] short_ws = Some r /\
    Forall (addressed_to "sitemap") (log r).
Proof.
  eexists. split; [vm_compute; reflexivity|].
  apply (requests_go_to_target workspace nat "sitemap"
           (fun w id => ws_list w id None) ws_delete ws_append
           "1/5/2024, 10:00:00" [] short_ws).
  vm_compute. reflexivity.
Defined.

(** X16: the batches are cut at the multiples of 100: the k-th batch
    appended is the slice [allBlocks.slice(100 k, 100 k + 100)] of
    [metadataBlocks] followed by the blocks; and when the call returns, it
    has appended the least number of batches of 100 that hold them all, at
    least one, since the two metadata blocks are always there. *)
Theorem batches_are_slices :
  forall (World Cursor : Type) (SITEMAP_PAGE_ID : string)
         (list_children : World -> string -> option (list_response Cursor))
         (delete_block : World -> string -> World * bool)
         (append_children :
            World -> string -> list notion_block -> World * bool)
         (now : string) (blocks : list notion_block) (w : World)
         (r : run World),
    updateSitemapPage SITEMAP_PAGE_ID list_children delete_block
      append_children now blocks w = Some r ->
    (forall k batch,
        appended (log r) !! k = Some batch ->
        batch = slice (100 * k) (100 * k + 100) (metadataBlocks now ++ blocks)) /\
    (returned r = true ->
     1 <= length (appended (log r)) /\
     length blocks + 2 <= 100 * length (appended (log r)) /\
     100 * length (appended (log r)) < length blocks + 2 + 100).
Proof.
  intros World Cursor target list_children delete_block append_children now
    blocks w r. unfold updateSitemapPage.
  destruct (list_children w target) as [existing|].
  - pose proof (delete_loop_log World delete_block (results existing) w
                  [(list_request target, true)]) as [Happ _].
    destruct (delete_loop _ _ _ _) as [w1 sent]. simpl in Happ.
    intros (batches & Hbat & Hk & _ & Hret)%append_loop_slices.
    rewrite Happ in Hbat. simpl in Hbat. rewrite Hbat.
    split.
    + intros k batch Hb. rewrite slice_batch. apply Hk in Hb. exact Hb.
    + intros [Hlow Hup]%Hret. rewrite length_app in Hlow, Hup.
      simpl in Hlow, Hup. specialize (Hup ltac:(lia)). lia.
  - intros [= <-]. simpl. split; [by intros k batch|done].
Qed.

Lemma batches_are_slices_witness :
  exists r,
    updateSitemapPage "sitemap" (fun w id => ws_list w id None) ws_delete
      ws_append "1/5/2024, 10:00:00" (replicate 250 divider) stale_ws
    = Some r /\
    length <$> appended (log r) = [100; 100; 52] /\
    forall k batch,
      appended (log r) !! k = Some batch ->
      batch =
      slice (100 * k) (100 * k + 100)
        (metadataBlocks "1/5/2024, 10:00:00" ++ replicate 250 divider).
Proof.
  eexists. split; [vm_compute; reflexivity|]. split; [reflexivity|].
  apply (batches_are_slices workspace nat "sitemap"
           (fun w id => ws_list w id None) ws_delete ws_append
           "1/5/2024, 10:00:00" (replicate 250 divider) stale_ws).
  vm_compute. reflexivity.
Defined.

(** How a call ends, read off the requests it sent. *)
Lemma updateSitemapPage_outcome {World Cursor} target
    (list_children : World -> string -> option (list_response Cursor))
    delete_block append_children now blocks w r :
  updateSitemapPage target list_children delete_block append_children now
    blocks w = Some r ->
  if returned r then Forall tolerated (log r)
  else exists pre request,
      log r = pre ++ [(request, false)] /\
      ~ is_delete (request, false) /\
      Forall tolerated pre.
Proof.
  unfold updateSitemapPage.
  destruct (list_children w target) as [existing|].
  - pose proof (delete_loop_Forall World delete_block tolerated
                  (results existing) (fun _ _ => or_introl I) w
                  [(list_request target, true)]) as Hdel.
    destruct (delete_loop _ _ _ _) as [w1 sent]. simpl in Hdel.
    intros Hrun. eapply append_loop_tolerated in Hrun.
    + destruct (returned r); [exact Hrun|].
      destruct Hrun as (pre & batch & Hlog & Hpre).
      exists pre, (append_request target batch). split; [exact Hlog|].
      split; [by intros []|exact Hpre].
    + apply Hdel. constructor; [by right|constructor].
  - intros [= <-]. simpl. exists [], (list_request target).
    split; [done|]. split; [by intros []|constructor].
Qed.

(** X17: [updateSitemapPage] rethrows exactly when its listing or one of its
    appends throws, and that request is the last one it sends; a deletion
    that throws never ends the run.  When the call returns, every listing
    and append it sent went through. *)
Theorem rethrows_on_list_or_append :
  forall (World Cursor : Type) (SITEMAP_PAGE_ID : string)
         (list_children : World -> string -> option (list_response Cursor))
         (delete_block : World -> string -> World * bool)
         (append_children :
            World -> string -> list notion_block -> World * bool)
         (now : string) (blocks : list notion_block) (w : World)
         (r : run World),
    updateSitemapPage SITEMAP_PAGE_ID list_children delete_block
      append_children now blocks w = Some r ->
    if returned r then Forall tolerated (log r)
    else exists pre request,
        log r = pre ++ [(request, false)] /\
        ~ is_delete (request, false) /\
        Forall tolerated pre.
Proof.
  intros World Cursor target list_children delete_block append_children now
    blocks w r. apply updateSitemapPage_outcome.
Qed.

Lemma rethrows_on_list_or_append_witness :
  exists r,
    updateSitemapPage "sitemap" (fun w id => ws_list w id None)
      (locked_delete "old-1") (fun w _ _ => (w, false))
      "1/5/2024, 10:00:00" [] short_ws
    = Some r /\
    returned r = false /\
    exists pre request,
      log r = pre ++ [(request, false)] /\
      ~ is_delete (request, false) /\
      Forall tolerated pre.
Proof.
  eexists. split; [vm_compute; reflexivity|]. split; [reflexivity|].
  match goal with
  | |- context [log ?r] =>
      exact (rethrows_on_list_or_append workspace nat "sitemap"
               (fun w id => ws_list w id None) (locked_delete "old-1")
               (fun w _ _ => (w, false)) "1/5/2024, 10:00:00" [] short_ws r
               ltac:(vm_compute; reflexivity))
  end.
Defined.

(** ** Main execution *)



(** X19: when [main] ends normally, the tree it built has the root page as
    its root, the count it logged is the number of nodes of that tree, at
    least 1, and the publisher returned after appending the two metadata
    blocks and one block per node counted: [pageCount + 2] blocks in all. *)
Theorem main_done :
  forall (env : environment) (pages_retrieve : string -> option page)
         (World Cursor : Type)
         (blocks_children_list :
            string -> option Cursor -> option (list_response Cursor))
         (list_children : World -> string -> option (list_response Cursor))
         (delete_block : World -> string -> World * bool)
         (append_children :
            World -> string -> list notion_block -> World * bool)
         (lfuel : nat) (now : string) (w : World)
         (pageCount : nat) (r : run World),
    main env pages_retrieve blocks_children_list list_children delete_block
      append_children lfuel now w = Some (done_ pageCount r) ->
    exists info children,
      buildSitemapTree pages_retrieve blocks_children_list lfuel
        (ROOT_PAGE_ID env) = Some (Node info children 0) /\
      id info = ROOT_PAGE_ID env /\
      pageCount = length (subtrees (Node info children 0)) /\
      1 <= pageCount /\
      returned r = true /\
      concat (appended (log r)) =
        metadataBlocks now ++ treeToNotionBlocks (Node info children 0) 0 /\
      length (concat (appended (log r))) = pageCount + 2.
Proof.
  intros env retrieve World Cursor list list_children delete_block
    append_children lfuel now w pageCount r. unfold main.
  destruct (_ || _ || _); [done|].
  destruct (buildSitemapTree retrieve list lfuel (ROOT_PAGE_ID env))
    as [[|info children d]|] eqn:Htree; [done| |done].
  destruct (updateSitemapPage_total World Cursor (SITEMAP_PAGE_ID env)
              list_children delete_block append_children now
              (treeToNotionBlocks (Node info children d) 0) w)
    as (r' & -> & _ & _ & Hall & _).
  destruct (returned r') eqn:Hret; [|done]. intros [= <- <-].
  apply buildSitemapTree_Some in Htree as [v' Hrun].
  change (MAX_DEPTH + 2) with (S 5) in Hrun.
  apply build_Node in Hrun as (Hinfo & -> & _).
  apply getPageDetails_Some in Hinfo as (p & _ & Hid & _).
  exists info, children. split; [done|].
  split; [by rewrite Hid|].
  split; [exact (countPages_subtrees (Node info children 0))|].
  change (1 <= countPages (Node info children 0) /\
          returned r' = true /\
          concat (appended (log r')) =
            metadataBlocks now ++ treeToNotionBlocks (Node info children 0) 0 /\
          length (concat (appended (log r'))) =
            countPages (Node info children 0) + 2).
  split; [rewrite countPages_Node; lia|]. split; [exact Hret|].
  split; [by apply Hall|]. rewrite (Hall eq_refl), length_app.
  rewrite treeToNotionBlocks_length. simpl length. lia.
Qed.

Lemma main_done_witness :
  exists r,
    ws_main office_env "1/5/2024, 10:00:00" office_ws = Some (done_ 3 r) /\
    length (concat (appended (log r))) = 5 /\
    (fmap block_id <$> (node_blocks <$> nodes (final r) !! "sitemap")) =
      Some ["new-0"; "new-1"; "new-2"; "new-3"; "new-4"].
Proof.
  eexists. split; [vm_compute; reflexivity|]. split.
  - destruct (main_done office_env (ws_retrieve office_ws) workspace nat
                (ws_list office_ws) (fun w id => ws_list w id None)
                ws_delete ws_append (ws_fuel office_ws)
                "1/5/2024, 10:00:00" office_ws 3 _
                ltac:(vm_compute; reflexivity))
      as (info & children & _ & _ & _ & _ & _ & _ & Hlen).
    exact Hlen.
  - vm_compute. reflexivity.
Defined.

(** X20: when [main] exits because the publisher rethrew, the tree had been
    built and counted all the same, the publisher's last request is the
    listing or append that failed, and what it had appended by then is a
    prefix, in whole batches, of the metadata blocks followed by the
    rendered tree. *)
Theorem main_fatal :
  forall (env : environment) (pages_retrieve : string -> option page)
         (World Cursor : Type)
         (blocks_children_list :
            string -> option Cursor -> option (list_response Cursor))
         (list_children : World -> string -> option (list_response Cursor))
         (delete_block : World -> string -> World * bool)
         (append_children :
            World -> string -> list notion_block -> World * bool)
         (lfuel : nat) (now : string) (w : World)
         (pageCount : nat) (r : run World),
    main env pages_retrieve blocks_children_list list_children delete_block
      append_children lfuel now w = Some (exit_fatal pageCount r) ->
    exists t,
      buildSitemapTree pages_retrieve blocks_children_list lfuel
        (ROOT_PAGE_ID env) = Some t /\
      t <> Null /\
      pageCount = countPages t /\
      returned r = false /\
      concat (appended (log r))
        `prefix_of` (metadataBlocks now ++ treeToNotionBlocks t 0) /\
      exists pre request,
        log r = pre ++ [(request, false)] /\ ~ is_delete (request, false).
Proof.
  intros env retrieve World Cursor list list_children delete_block
    append_children lfuel now w pageCount r. unfold main.
  destruct (_ || _ || _); [done|].
  destruct (buildSitemapTree retrieve list lfuel (ROOT_PAGE_ID env))
    as [[|info children d]|] eqn:Htree; [done| |done].
  destruct (updateSitemapPage_total World Cursor (SITEMAP_PAGE_ID env)
              list_children delete_block append_children now
              (treeToNotionBlocks (Node info children d) 0) w)
    as (r' & Hrun & _ & Hpre & _).
  rewrite Hrun. apply updateSitemapPage_outcome in Hrun.
  destruct (returned r') eqn:Hret; [done|]. intros [= <- <-].
  exists (Node info children d). split; [done|]. split; [done|].
  split; [done|]. split; [exact Hret|]. split; [exact Hpre|].
  destruct Hrun as (pre & request & Hlog & Hnot & _). eauto.
Qed.

Lemma main_fatal_witness :
  exists r,
    ws_main {| NOTION_TOKEN := Some "secret";
               NOTION_ROOT_PAGE_ID := Some "root-1";
               NOTION_SITEMAP_PAGE_ID := Some "nowhere" |}
      "1/5/2024, 10:00:00" office_ws
    = Some (exit_fatal 3 r) /\
    returned r = false /\
    appended (log r) = [].
Proof.
  eexists. split; [vm_compute; reflexivity|].
  destruct (main_fatal
              {| NOTION_TOKEN := Some "secret";
                 NOTION_ROOT_PAGE_ID := Some "root-1";
                 NOTION_SITEMAP_PAGE_ID := Some "nowhere" |}
              (ws_retrieve office_ws) workspace nat
              (ws_list office_ws) (fun w id => ws_list w id None)
              ws_delete ws_append (ws_fuel office_ws)
              "1/5/2024, 10:00:00" office_ws 3 _
              ltac:(vm_compute; reflexivity))
    as (t & _ & _ & _ & Hret & _).
  split; [exact Hret|reflexivity].
Defined.

(** ** The visited set *)

Section VisitedMore.

Variable pages_retrieve : string -> option page.
Variable Cursor : Type.
Variable blocks_children_list :
  string -> option Cursor -> option (list_response Cursor).
Variable lfuel : nat.

Lemma children_loop_grows
    (rec : string -> nat -> gset string -> option (tree * gset string))
    depth :
  (forall pageId v t v', rec pageId (depth + 1) v = Some (t, v') -> v ⊆ v') ->
  forall items children v out v',
    children_loop rec depth items children v = Some (out, v') -> v ⊆ v'.
Proof.
  intros Hrec. induction items as [|c items IH]; intros children v out v';
    simpl.
  - by intros [= <- <-].
  - destruct (String.eqb (child_type c) "page").
    + destruct (rec (child_id c) (depth + 1) v) as [[t v1]|] eqn:Hcall;
        [|done].
      apply Hrec in Hcall.
      destruct t; intros Hloop%IH; by transitivity v1.
    + destruct (String.eqb (child_type c) "database"); apply IH.
Qed.

Lemma build_marks_visited fuel pageId d v t v' :
  build pages_retrieve blocks_children_list lfuel fuel pageId d v
  = Some (t, v') ->
  d <= MAX_DEPTH ->
  pageId ∈ v'.
Proof.
  destruct fuel as [|fuel]; [done|]. rewrite build_S. intros Hrun Hd.
  destruct (Nat.ltb_spec MAX_DEPTH d) as [Hdeep|_]; [lia|]. simpl in Hrun.
  destruct (bool_decide (pageId ∈ v)) eqn:Hseen.
  { apply bool_decide_eq_true in Hseen. by injection Hrun as <- <-. }
  destruct (getPageDetails pages_retrieve pageId) as [info|].
  2:{ injection Hrun as <- <-. set_solver. }
  destruct (getChildPages blocks_children_list lfuel pageId) as [items|];
    [|done].
  destruct (children_loop _ d items [] _) as [[cs v1]|] eqn:Hloop; [|done].
  injection Hrun as <- <-.
  apply children_loop_grows in Hloop.
  - clear -Hloop. set_solver.
  - intros p w t0 w' Hcall.
    by apply build_fresh in Hcall as [Hsub _].
Qed.

End VisitedMore.

(** X12: a page is attempted at most once in a run: after a call for a page
    within the depth cap, whether it gave a node or [null] because the
    details could not be fetched, the page is in the visited set, and every
    later call for it returns [null] without fetching it again. *)
Theorem page_attempted_once :
  forall (pages_retrieve : string -> option page) (Cursor : Type)
         (blocks_children_list :
            string -> option Cursor -> option (list_response Cursor))
         (lfuel fuel : nat) (pageId : string) (depth : nat)
         (visited : gset string) (t : tree) (visited' : gset string),
    build pages_retrieve blocks_children_list lfuel fuel pageId depth visited
    = Some (t, visited') ->
    depth <= MAX_DEPTH ->
    visited ⊆ visited' /\
    pageId ∈ visited' /\
    forall fuel' depth' (later : gset string),
      visited' ⊆ later ->
      build pages_retrieve blocks_children_list lfuel (S fuel') pageId depth'
        later
      = Some (Null, later).
Proof.
  intros retrieve Cursor list lfuel fuel pageId depth visited t visited'
    Hrun Hd.
  pose proof (build_marks_visited _ _ _ _ _ _ _ _ _ _ Hrun Hd) as Hin.
  apply build_fresh in Hrun as [Hsub _].
  split; [exact Hsub|]. split; [exact Hin|].
  intros fuel' depth' later Hlater. apply build_guard. right.
  by apply Hlater.
Qed.

Lemma page_attempted_once_witness :
  build (ws_retrieve partial_ws) (ws_list partial_ws) (ws_fuel partial_ws)
    3 "p" 1 ∅
  = Some (Null, {["p"]}) /\
  build (ws_retrieve partial_ws) (ws_list partial_ws) (ws_fuel partial_ws)
    3 "p" 1 {["p"]}
  = Some (Null, {["p"]}).
Proof.
  assert (build (ws_retrieve partial_ws) (ws_list partial_ws)
            (ws_fuel partial_ws) 3 "p" 1 ∅ = Some (Null, {["p"]})) as Hfirst
    by (vm_compute; reflexivity).
  split; [exact Hfirst|].
  destruct (page_attempted_once _ _ _ _ _ _ _ _ _ _ Hfirst) as (_ & _ & Hagain).
  - unfold MAX_DEPTH. lia.
  - apply Hagain. done.
Defined.

(** ** Batches *)




